(** * Inheritance-tax valuation estimator of the cross-border financial simulator

    A shallow embedding of the two [InheritanceCalculator] React components
    found under frontend/src/components (the estimator with pension and asset
    tables, and the pension-only estimator) and of the record types they
    consume (frontend/src/types), followed by the state handling of the
    [Dashboard] component and the submission path of the pension and asset
    forms.

    Conventions of the embedding.
    - A JavaScript [number] that holds money, a rate or a factor is an exact
      rational ([Q]); calendar years, ages and head counts, which the forms
      obtain through [parseInt] or an integer slider, are integers ([Z]).
      NaN, the infinities and binary rounding are outside this reading; where
      they decide the behaviour (a rate so small that a division underflows
      or a subtraction cancels) the two factor formulas are modelled a second
      time over binary64 numbers, in [Double].
    - A [Record<string, number>] is a finite map from strings to rationals;
      what a property read finds beyond the stored entries, on
      [Object.prototype], is modelled in [JSObject].
    - An optional field ([f?: T]) is an [option].
    - A function body either completes normally with a value or throws; the
      component contains no [throw], which the [Completion] type makes
      explicit. *)

From Stdlib Require Import ZArith QArith Qabs Qpower Qround Qfield Lia Lqa List.
From Stdlib Require Floats Uint63.
From stdpp Require Import gmap strings.
Import ListNotations.

Local Open Scope Q_scope.

(** ** JavaScript primitives used by the component *)

Module JS.

(** [a || b] where [a] is an optional integer: [undefined] and [0] are
    falsy. *)
Definition or_int (a : option Z) (b : Z) : Z :=
  match a with
  | Some v => if (v =? 0)%Z then b else v
  | None => b
  end.

(** [a || b] where [a] is an optional number: [undefined] and [0] are
    falsy. *)
Definition or_num (a : option Q) (b : Q) : Q :=
  match a with
  | Some v => if Qeq_bool v 0 then b else v
  | None => b
  end.

(** [a > b] on numbers. *)
Definition gt (a b : Q) : bool := negb (Qle_bool a b).

(** [Math.pow(b, e)] for an integral exponent. *)
Definition pow (b : Q) (e : Z) : Q := Qpower b e.

(** [arr.reduce((sum, v) => sum + f(v), 0)]. *)
Definition reduce_sum {A : Type} (f : A -> Q) (arr : list A) : Q :=
  fold_left (fun sum v => sum + f v) arr 0.

(** [x.toFixed(3)], as the number of thousandths that is printed: the
    integer [n] with [n / 1000] nearest to [x], the larger one on a tie,
    computed on the absolute value and then signed. *)
Definition toFixed3 (x : Q) : Z :=
  let n := Qfloor (Qabs x * 1000 + (1 # 2)) in
  if Qle_bool 0 x then n else (- n)%Z.

(** Outcome of running a function body. *)
Inductive ErrorKind : Set := InvalidInput | NotFound | PersistenceFailure.

Inductive Completion (A : Type) : Type :=
| Normal (value : A)
| Throw (error : ErrorKind).
Global Arguments Normal {A} value.
Global Arguments Throw {A} error.

End JS.

(** ** Data model (frontend/src/types) *)

Record UserProfile : Type := {
  birth_year : Z;
  life_expectancy : Z;
  retirement_age : Z;
  spouse_birth_year : option Z
}.

Module Pension.
Record t : Type := {
  id : option string;
  name : string;
  currency : string;
  monthly_amount_estimated : Q;
  start_age : Z;
  is_inflation_adjusted : bool
}.
End Pension.

Record SimulationResult : Type := {
  year : Z;
  age : Z;
  total_assets : Q;
  pension_incomes : gmap string Q;
  asset_balances : option (gmap string Q);
  asset_drawdowns : option (gmap string Q)
}.

(** Rows of the two valuation tables. *)
Module PensionValuation.
Record t : Type := {
  name : string;
  annualAmountUSD : Q;
  valuationUSD : Q;
  valuationJPY : Q
}.
End PensionValuation.

Module AssetValuation.
Record t : Type := {
  name : string;
  balanceUSD : Q;
  valuationUSD : Q;
  valuationJPY : Q
}.
End AssetValuation.

(** ** Formulas shared by both revisions of the component *)

(** [simulationResult.find(r => r.year === inheritanceYear)]. *)
Definition targetResult (simulationResult : list SimulationResult)
    (inheritanceYear : Z) : option SimulationResult :=
  List.find (fun r => (year r =? inheritanceYear)%Z) simulationResult.

(** [inheritanceYear - (profile.spouse_birth_year || profile.birth_year)]. *)
Definition spouseAgeAtInheritance (profile : UserProfile) (inheritanceYear : Z) : Z :=
  (inheritanceYear - JS.or_int (spouse_birth_year profile) (birth_year profile))%Z.

(** [Math.max(0, spouseLifeExpectancyAge - spouseAgeAtInheritance)]. *)
Definition remainingLifeExpectancy (profile : UserProfile)
    (inheritanceYear spouseLifeExpectancyAge : Z) : Z :=
  Z.max 0 (spouseLifeExpectancyAge - spouseAgeAtInheritance profile inheritanceYear).

(** The present-value factor computed inside the valuation memo:
    [r = interestRate / 100; if (r === 0) pvFactor = n;
     else pvFactor = (1 - Math.pow(1 + r, -n)) / r]. *)
Definition pvFactor (interestRate : Q) (n : Z) : Q :=
  let r := interestRate / 100 in
  if Qeq_bool r 0 then inject_Z n
  else (1 - JS.pow (1 + r) (- n)) / r.

(** The number formatted in the Calculation Parameters panel:
    [interestRate > 0
       ? (1 - Math.pow(1 + interestRate / 100, -remainingYears)) / (interestRate / 100)
       : remainingYears], before [.toFixed(3)]. *)
Definition pvFactorPreview (interestRate : Q) (remainingYears : Z) : Q :=
  if JS.gt interestRate 0
  then (1 - JS.pow (1 + interestRate / 100) (- remainingYears)) / (interestRate / 100)
  else inject_Z remainingYears.

(** Reference value for the factor: the present value, at yearly rate [r],
    of one unit paid at the end of each of the next [n] years. *)
Fixpoint annuityPresentValue (r : Q) (n : nat) : Q :=
  match n with
  | O => 0
  | S k => annuityPresentValue r k + / (1 + r) ^ Z.of_nat (S k)
  end.

(** Reference sum of a list of amounts. *)
Definition Qsum (amounts : list Q) : Q := fold_right Qplus 0 amounts.

(** One row of the pension table, as built by the callback of
    [pensions.map] for a found [targetResult].  The row is the rendered one
    whenever the read of [pension_incomes[pension.name]] yields a number or
    nothing; [annualAmountRead] below covers the names that the read resolves
    on [Object.prototype]. *)
Definition pensionRow (target : SimulationResult) (factor rate : Q)
    (pension : Pension.t) : PensionValuation.t :=
  let annualAmountUSD :=
    JS.or_num (pension_incomes target !! Pension.name pension) 0 in
  let valuationUSD := annualAmountUSD * factor in
  let valuationJPY := valuationUSD * rate in
  {| PensionValuation.name := Pension.name pension;
     PensionValuation.annualAmountUSD := annualAmountUSD;
     PensionValuation.valuationUSD := valuationUSD;
     PensionValuation.valuationJPY := valuationJPY |}.

(** One row of the asset table, as built by the callback of
    [Object.entries(targetResult.asset_balances).map]. *)
Definition assetRow (rate : Q) (entry : string * Q) : AssetValuation.t :=
  let '(name, balanceUSD) := entry in
  let valuationJPY := balanceUSD * rate in
  {| AssetValuation.name := name;
     AssetValuation.balanceUSD := balanceUSD;
     AssetValuation.valuationUSD := balanceUSD;
     AssetValuation.valuationJPY := valuationJPY |}.

(** ** The estimator with pension and asset tables *)

Module Estimator.

Record Props : Type := {
  simulationResult : list SimulationResult;
  profile : UserProfile;
  pensions : list Pension.t;
  exchangeRate : Q
}.

(** The five [useState] cells. *)
Record State : Type := {
  inheritanceYear : Z;
  interestRate : Q;
  spouseLifeExpectancyAge : Z;
  numberOfHeirs : Z;
  calculationExchangeRate : Q
}.

Definition initialState (currentYear : Z) (props : Props) : State :=
  {| inheritanceYear := currentYear + 10;
     interestRate := 25 # 10;
     spouseLifeExpectancyAge := 87;
     numberOfHeirs := 1;
     calculationExchangeRate := exchangeRate props |}.

(** Pension valuations (PV method). *)
Definition pensionValuations (props : Props) (st : State) : list PensionValuation.t :=
  match targetResult (simulationResult props) (inheritanceYear st) with
  | None => []
  | Some target =>
      let n := remainingLifeExpectancy (profile props) (inheritanceYear st)
                 (spouseLifeExpectancyAge st) in
      List.map (pensionRow target (pvFactor (interestRate st) n)
                  (calculationExchangeRate st))
               (pensions props)
  end.

(** Asset valuations (balance method). *)
Definition assetValuations (props : Props) (st : State) : list AssetValuation.t :=
  match targetResult (simulationResult props) (inheritanceYear st) with
  | None => []
  | Some target =>
      match asset_balances target with
      | None => []
      | Some balances =>
          List.map (assetRow (calculationExchangeRate st)) (map_to_list balances)
      end
  end.

(** Recomputed in the component body for the labels and the preview. *)
Definition spouseAge (props : Props) (st : State) : Z :=
  (inheritanceYear st
   - JS.or_int (spouse_birth_year (profile props)) (birth_year (profile props)))%Z.

Definition remainingYears (props : Props) (st : State) : Z :=
  Z.max 0 (spouseLifeExpectancyAge st - spouseAge props st).

(** Totals. *)
Definition totalPensionValuationJPY (props : Props) (st : State) : Q :=
  JS.reduce_sum PensionValuation.valuationJPY (pensionValuations props st).

Definition totalAssetValuationJPY (props : Props) (st : State) : Q :=
  JS.reduce_sum AssetValuation.valuationJPY (assetValuations props st).

Definition totalValuationJPY (props : Props) (st : State) : Q :=
  totalPensionValuationJPY props st + totalAssetValuationJPY props st.

Definition exemptionLimit (st : State) : Z := (5000000 * numberOfHeirs st)%Z.

(** What one render of the component puts on the page. *)
Record View : Type := {
  shownSpouseAge : Z;
  shownRemainingYears : Z;
  shownPvFactor : Z;
  shownExemptionLimit : Z;
  pensionRows : list PensionValuation.t;
  pensionSubtotalUSD : Q;
  pensionSubtotalJPY : Q;
  assetRows : list AssetValuation.t;
  assetSubtotalUSD : Q;
  assetSubtotalJPY : Q;
  grandTotalJPY : Q
}.

Definition InheritanceCalculator (props : Props) (st : State) : JS.Completion View :=
  JS.Normal
    {| shownSpouseAge := spouseAge props st;
       shownRemainingYears := remainingYears props st;
       shownPvFactor :=
         JS.toFixed3 (pvFactorPreview (interestRate st) (remainingYears props st));
       shownExemptionLimit := exemptionLimit st;
       pensionRows := pensionValuations props st;
       pensionSubtotalUSD :=
         JS.reduce_sum PensionValuation.valuationUSD (pensionValuations props st);
       pensionSubtotalJPY := totalPensionValuationJPY props st;
       assetRows := assetValuations props st;
       assetSubtotalUSD :=
         JS.reduce_sum AssetValuation.valuationUSD (assetValuations props st);
       assetSubtotalJPY := totalAssetValuationJPY props st;
       grandTotalJPY := totalValuationJPY props st |}.

End Estimator.

(** ** The pension-only estimator *)

Module PensionEstimator.

Record Props : Type := {
  simulationResult : list SimulationResult;
  profile : UserProfile;
  pensions : list Pension.t;
  exchangeRate : Q
}.

(** The three [useState] cells. *)
Record State : Type := {
  inheritanceYear : Z;
  interestRate : Q;
  spouseLifeExpectancyAge : Z
}.

Definition initialState (currentYear : Z) : State :=
  {| inheritanceYear := currentYear + 10;
     interestRate := 25 # 10;
     spouseLifeExpectancyAge := 87 |}.

Definition valuations (props : Props) (st : State) : list PensionValuation.t :=
  match targetResult (simulationResult props) (inheritanceYear st) with
  | None => []
  | Some target =>
      let n := remainingLifeExpectancy (profile props) (inheritanceYear st)
                 (spouseLifeExpectancyAge st) in
      List.map (pensionRow target (pvFactor (interestRate st) n) (exchangeRate props))
               (pensions props)
  end.

Definition spouseAge (props : Props) (st : State) : Z :=
  (inheritanceYear st
   - JS.or_int (spouse_birth_year (profile props)) (birth_year (profile props)))%Z.

Definition remainingYears (props : Props) (st : State) : Z :=
  Z.max 0 (spouseLifeExpectancyAge st - spouseAge props st).

Record View : Type := {
  shownSpouseAge : Z;
  shownRemainingYears : Z;
  shownPvFactor : Z;
  rows : list PensionValuation.t;
  totalUSD : Q;
  totalJPY : Q
}.

Definition InheritanceCalculator (props : Props) (st : State) : JS.Completion View :=
  JS.Normal
    {| shownSpouseAge := spouseAge props st;
       shownRemainingYears := remainingYears props st;
       shownPvFactor :=
         JS.toFixed3 (pvFactorPreview (interestRate st) (remainingYears props st));
       rows := valuations props st;
       totalUSD := JS.reduce_sum PensionValuation.valuationUSD (valuations props st);
       totalJPY := JS.reduce_sum PensionValuation.valuationJPY (valuations props st) |}.

End PensionEstimator.

(** ** Profiles with and without a spouse birth year *)

(** The same profile with the optional [spouse_birth_year] left out. *)
Definition withoutSpouseBirthYear (p : UserProfile) : UserProfile :=
  {| birth_year := birth_year p;
     life_expectancy := life_expectancy p;
     retirement_age := retirement_age p;
     spouse_birth_year := None |}.

Definition Estimator_withProfile (props : Estimator.Props) (p : UserProfile)
    : Estimator.Props :=
  {| Estimator.simulationResult := Estimator.simulationResult props;
     Estimator.profile := p;
     Estimator.pensions := Estimator.pensions props;
     Estimator.exchangeRate := Estimator.exchangeRate props |}.

Definition PensionEstimator_withProfile (props : PensionEstimator.Props)
    (p : UserProfile) : PensionEstimator.Props :=
  {| PensionEstimator.simulationResult := PensionEstimator.simulationResult props;
     PensionEstimator.profile := p;
     PensionEstimator.pensions := PensionEstimator.pensions props;
     PensionEstimator.exchangeRate := PensionEstimator.exchangeRate props |}.

(** ** A sample scenario

    The dashboard defaults (born 1975, exchange rate 150) with one pension
    and one retirement account, projected for the year 2035. *)

Module Sample.

Definition profile : UserProfile :=
  {| birth_year := 1975;
     life_expectancy := 95;
     retirement_age := 65;
     spouse_birth_year := Some 1975%Z |}.

Definition profileZeroSpouseYear : UserProfile :=
  {| birth_year := 1975;
     life_expectancy := 95;
     retirement_age := 65;
     spouse_birth_year := Some 0%Z |}.

Definition socialSecurity : Pension.t :=
  {| Pension.id := None;
     Pension.name := "SocialSecurity";
     Pension.currency := "USD";
     Pension.monthly_amount_estimated := 2000;
     Pension.start_age := 67;
     Pension.is_inflation_adjusted := false |}.

Definition year2035 : SimulationResult :=
  {| year := 2035;
     age := 60;
     total_assets := 500000;
     pension_incomes := {[ "SocialSecurity"%string := 24000 ]};
     asset_balances := Some {[ "401k"%string := 500000 ]};
     asset_drawdowns := None |}.

Definition props : Estimator.Props :=
  {| Estimator.simulationResult := [year2035];
     Estimator.profile := profile;
     Estimator.pensions := [socialSecurity];
     Estimator.exchangeRate := 150 |}.

(** Inheritance in 2035, the year of the series. *)
Definition state : Estimator.State :=
  {| Estimator.inheritanceYear := 2035;
     Estimator.interestRate := 25 # 10;
     Estimator.spouseLifeExpectancyAge := 87;
     Estimator.numberOfHeirs := 2;
     Estimator.calculationExchangeRate := 150 |}.

(** Inheritance in 2040, a year the series does not have. *)
Definition stateAbsentYear : Estimator.State :=
  {| Estimator.inheritanceYear := 2040;
     Estimator.interestRate := 25 # 10;
     Estimator.spouseLifeExpectancyAge := 87;
     Estimator.numberOfHeirs := 2;
     Estimator.calculationExchangeRate := 150 |}.

(** The exchange-rate field set to a negative number. *)
Definition stateNegativeRate : Estimator.State :=
  {| Estimator.inheritanceYear := 2035;
     Estimator.interestRate := 0;
     Estimator.spouseLifeExpectancyAge := 87;
     Estimator.numberOfHeirs := 2;
     Estimator.calculationExchangeRate := - 150 |}.

Definition oldProps : PensionEstimator.Props :=
  {| PensionEstimator.simulationResult := [year2035];
     PensionEstimator.profile := profile;
     PensionEstimator.pensions := [socialSecurity];
     PensionEstimator.exchangeRate := 150 |}.

Definition oldState : PensionEstimator.State :=
  {| PensionEstimator.inheritanceYear := 2035;
     PensionEstimator.interestRate := 25 # 10;
     PensionEstimator.spouseLifeExpectancyAge := 87 |}.

Definition oldStateAbsentYear : PensionEstimator.State :=
  {| PensionEstimator.inheritanceYear := 2040;
     PensionEstimator.interestRate := 25 # 10;
     PensionEstimator.spouseLifeExpectancyAge := 87 |}.

End Sample.

(** ** The two estimators side by side *)

(** The props and state of the estimator with assets, as the pension-only
    estimator would receive them. *)
Definition asPensionEstimatorProps (props : Estimator.Props) : PensionEstimator.Props :=
  {| PensionEstimator.simulationResult := Estimator.simulationResult props;
     PensionEstimator.profile := Estimator.profile props;
     PensionEstimator.pensions := Estimator.pensions props;
     PensionEstimator.exchangeRate := Estimator.exchangeRate props |}.

Definition asPensionEstimatorState (st : Estimator.State) : PensionEstimator.State :=
  {| PensionEstimator.inheritanceYear := Estimator.inheritanceYear st;
     PensionEstimator.interestRate := Estimator.interestRate st;
     PensionEstimator.spouseLifeExpectancyAge := Estimator.spouseLifeExpectancyAge st |}.

(** ** The heirs field of the estimator with assets

    [onChange={(e) => setNumberOfHeirs(parseInt(e.target.value) || 1)}];
    [parsed] is what [parseInt] returned, [None] standing for NaN. *)
Definition onNumberOfHeirsChange (parsed : option Z) (st : Estimator.State)
    : Estimator.State :=
  {| Estimator.inheritanceYear := Estimator.inheritanceYear st;
     Estimator.interestRate := Estimator.interestRate st;
     Estimator.spouseLifeExpectancyAge := Estimator.spouseLifeExpectancyAge st;
     Estimator.numberOfHeirs := JS.or_int parsed 1;
     Estimator.calculationExchangeRate := Estimator.calculationExchangeRate st |}.

(** ** Further sample data *)

(** A 2035 result as an older projection produced it, without per-asset
    balances, and a later duplicate of the same year. *)
Definition sampleYearWithoutAssets : SimulationResult :=
  {| year := 2035;
     age := 60;
     total_assets := 500000;
     pension_incomes := {[ "SocialSecurity"%string := 24000 ]};
     asset_balances := None;
     asset_drawdowns := None |}.

Definition samplePropsWithoutAssets : Estimator.Props :=
  {| Estimator.simulationResult := [sampleYearWithoutAssets];
     Estimator.profile := Sample.profile;
     Estimator.pensions := [Sample.socialSecurity];
     Estimator.exchangeRate := 150 |}.

(** Two pensions entered under one name. *)
Definition sampleHomonym : Pension.t :=
  {| Pension.id := None;
     Pension.name := "SocialSecurity";
     Pension.currency := "JPY";
     Pension.monthly_amount_estimated := 90000;
     Pension.start_age := 65;
     Pension.is_inflation_adjusted := true |}.

Definition samplePropsHomonyms : Estimator.Props :=
  {| Estimator.simulationResult := [Sample.year2035];
     Estimator.profile := Sample.profile;
     Estimator.pensions := [Sample.socialSecurity; sampleHomonym];
     Estimator.exchangeRate := 150 |}.

(** ** The dashboard

    The [Dashboard] component keeps the three entry lists, the profile and the
    last simulation result in [useState] cells.  It never looks inside an
    asset, a pension or a life event when it updates its state, so the three
    entry types are left abstract. *)

Module Dashboard.

Inductive Location : Set := US | JP.

(** The profile as the dashboard holds it (it carries [current_location]). *)
Record Profile : Type := {
  birth_year : Z;
  spouse_birth_year : option Z;
  current_location : Location;
  retirement_age : Z;
  life_expectancy : Z
}.

Section Entries.

Variables (asset pension lifeEvent : Type).

Record State : Type := {
  assets : list asset;
  pensions : list pension;
  lifeEvents : list lifeEvent;
  profile : Profile;
  simulationResult : option (list SimulationResult)
}.

Definition initialState : State :=
  {| assets := [];
     pensions := [];
     lifeEvents := [];
     profile := {| birth_year := 1975;
                   spouse_birth_year := Some 1975%Z;
                   current_location := US;
                   retirement_age := 65;
                   life_expectancy := 95 |};
     simulationResult := None |}.

(** [setAssets([...assets, asset])] and its two siblings. *)
Definition handleAddAsset (a : asset) (st : State) : State :=
  {| assets := assets st ++ [a];
     pensions := pensions st;
     lifeEvents := lifeEvents st;
     profile := profile st;
     simulationResult := simulationResult st |}.

Definition handleAddPension (p : pension) (st : State) : State :=
  {| assets := assets st;
     pensions := pensions st ++ [p];
     lifeEvents := lifeEvents st;
     profile := profile st;
     simulationResult := simulationResult st |}.

Definition handleAddLifeEvent (e : lifeEvent) (st : State) : State :=
  {| assets := assets st;
     pensions := pensions st;
     lifeEvents := lifeEvents st ++ [e];
     profile := profile st;
     simulationResult := simulationResult st |}.

(** The [x] buttons: [const copy = [...list]; copy.splice(index, 1);
    setList(copy)]. *)
Definition removeAsset (index : nat) (st : State) : State :=
  {| assets := delete index (assets st);
     pensions := pensions st;
     lifeEvents := lifeEvents st;
     profile := profile st;
     simulationResult := simulationResult st |}.

Definition removePension (index : nat) (st : State) : State :=
  {| assets := assets st;
     pensions := delete index (pensions st);
     lifeEvents := lifeEvents st;
     profile := profile st;
     simulationResult := simulationResult st |}.

Definition removeLifeEvent (index : nat) (st : State) : State :=
  {| assets := assets st;
     pensions := pensions st;
     lifeEvents := delete index (lifeEvents st);
     profile := profile st;
     simulationResult := simulationResult st |}.

Definition setProfile (p : Profile) (st : State) : State :=
  {| assets := assets st;
     pensions := pensions st;
     lifeEvents := lifeEvents st;
     profile := p;
     simulationResult := simulationResult st |}.

(** The three profile inputs: [setProfile({ ...profile, birth_year:
    parseInt(e.target.value) || 1975 })] and likewise for the spouse birth
    year (default 1975) and the retirement age (default 65); [parsed] is what
    [parseInt] returned, [None] standing for NaN. *)
Definition onBirthYearChange (parsed : option Z) (st : State) : State :=
  setProfile
    {| birth_year := JS.or_int parsed 1975;
       spouse_birth_year := spouse_birth_year (profile st);
       current_location := current_location (profile st);
       retirement_age := retirement_age (profile st);
       life_expectancy := life_expectancy (profile st) |} st.

Definition onSpouseBirthYearChange (parsed : option Z) (st : State) : State :=
  setProfile
    {| birth_year := birth_year (profile st);
       spouse_birth_year := Some (JS.or_int parsed 1975);
       current_location := current_location (profile st);
       retirement_age := retirement_age (profile st);
       life_expectancy := life_expectancy (profile st) |} st.

Definition onRetirementAgeChange (parsed : option Z) (st : State) : State :=
  setProfile
    {| birth_year := birth_year (profile st);
       spouse_birth_year := spouse_birth_year (profile st);
       current_location := current_location (profile st);
       retirement_age := JS.or_int parsed 65;
       life_expectancy := life_expectancy (profile st) |} st.

(** The request body of [/simulate] and of [/save]. *)
Record SimulationInput : Type := {
  input_profile : Profile;
  input_assets : list asset;
  input_pensions : list pension;
  life_events : list lifeEvent;
  exchange_rate_usd_jpy : Q;
  inflation_rate_us : Q;
  inflation_rate_jp : Q
}.

(** The object literal built in [runSimulation]. *)
Definition simulationInput (st : State) : SimulationInput :=
  {| input_profile := profile st;
     input_assets := assets st;
     input_pensions := pensions st;
     life_events := lifeEvents st;
     exchange_rate_usd_jpy := 150;
     inflation_rate_us := 2 # 100;
     inflation_rate_jp := 1 # 100 |}.

(** The object literal built in the Save Data handler. *)
Definition saveInput (st : State) : SimulationInput :=
  {| input_profile := profile st;
     input_assets := assets st;
     input_pensions := pensions st;
     life_events := lifeEvents st;
     exchange_rate_usd_jpy := 150;
     inflation_rate_us := 2 # 100;
     inflation_rate_jp := 1 # 100 |}.

(** [runSimulation] after the request: the parsed body replaces the result;
    a failed request ([None]) is logged and changes nothing. *)
Definition onSimulationResponse (response : option (list SimulationResult))
    (st : State) : State :=
  match response with
  | Some result =>
      {| assets := assets st;
         pensions := pensions st;
         lifeEvents := lifeEvents st;
         profile := profile st;
         simulationResult := Some result |}
  | None => st
  end.

(** The parsed body of [/load]; every field may be missing. *)
Record LoadResponse : Type := {
  status : option string;
  message : option string;
  loaded_assets : option (list asset);
  loaded_pensions : option (list pension);
  loaded_life_events : option (list lifeEvent);
  loaded_profile : option Profile
}.

Inductive Alert : Type :=
| DataLoaded
| FailedToLoad (message : option string)
| LoadFailed.

(** The Load Data handler after the request ([None]: the request or its
    parsing threw).  Arrays and objects are truthy, so a present field is
    always taken, an empty list included. *)
Definition onLoadResponse (response : option LoadResponse) (st : State)
    : State * Alert :=
  match response with
  | None => (st, LoadFailed)
  | Some result =>
      if decide (status result = Some "error"%string)
      then (st, FailedToLoad (message result))
      else
        ({| assets := default (assets st) (loaded_assets result);
            pensions := default (pensions st) (loaded_pensions result);
            lifeEvents := default (lifeEvents st) (loaded_life_events result);
            profile := default (profile st) (loaded_profile result);
            simulationResult := simulationResult st |},
         DataLoaded)
  end.

(** The body of [/load] when the server hands back a stored request body
    unchanged. *)
Definition loadResponseOf (input : SimulationInput) : LoadResponse :=
  {| status := None;
     message := None;
     loaded_assets := Some (input_assets input);
     loaded_pensions := Some (input_pensions input);
     loaded_life_events := Some (life_events input);
     loaded_profile := Some (input_profile input) |}.

(** What the user can do between two loads. *)
Inductive Edit : Type :=
| AddAsset (a : asset)
| AddPension (p : pension)
| AddLifeEvent (e : lifeEvent)
| RemoveAsset (index : nat)
| RemovePension (index : nat)
| RemoveLifeEvent (index : nat)
| EditBirthYear (parsed : option Z)
| EditSpouseBirthYear (parsed : option Z)
| EditRetirementAge (parsed : option Z)
| RunSimulation (response : option (list SimulationResult)).

Definition apply (st : State) (e : Edit) : State :=
  match e with
  | AddAsset a => handleAddAsset a st
  | AddPension p => handleAddPension p st
  | AddLifeEvent ev => handleAddLifeEvent ev st
  | RemoveAsset i => removeAsset i st
  | RemovePension i => removePension i st
  | RemoveLifeEvent i => removeLifeEvent i st
  | EditBirthYear parsed => onBirthYearChange parsed st
  | EditSpouseBirthYear parsed => onSpouseBirthYearChange parsed st
  | EditRetirementAge parsed => onRetirementAgeChange parsed st
  | RunSimulation response => onSimulationResponse response st
  end.

Definition applyAll (st : State) (edits : list Edit) : State :=
  fold_left apply edits st.

End Entries.

Arguments assets {asset pension lifeEvent} _.
Arguments pensions {asset pension lifeEvent} _.
Arguments lifeEvents {asset pension lifeEvent} _.
Arguments profile {asset pension lifeEvent} _.
Arguments simulationResult {asset pension lifeEvent} _.
Arguments handleAddAsset {asset pension lifeEvent} _ _.
Arguments handleAddPension {asset pension lifeEvent} _ _.
Arguments handleAddLifeEvent {asset pension lifeEvent} _ _.
Arguments removeAsset {asset pension lifeEvent} _ _.
Arguments removePension {asset pension lifeEvent} _ _.
Arguments removeLifeEvent {asset pension lifeEvent} _ _.
Arguments onBirthYearChange {asset pension lifeEvent} _ _.
Arguments onSpouseBirthYearChange {asset pension lifeEvent} _ _.
Arguments onRetirementAgeChange {asset pension lifeEvent} _ _.
Arguments simulationInput {asset pension lifeEvent} _.
Arguments saveInput {asset pension lifeEvent} _.
Arguments onSimulationResponse {asset pension lifeEvent} _ _.
Arguments onLoadResponse {asset pension lifeEvent} _ _.
Arguments loadResponseOf {asset pension lifeEvent} _.
Arguments status {asset pension lifeEvent} _.
Arguments message {asset pension lifeEvent} _.
Arguments loaded_assets {asset pension lifeEvent} _.
Arguments loaded_pensions {asset pension lifeEvent} _.
Arguments loaded_life_events {asset pension lifeEvent} _.
Arguments loaded_profile {asset pension lifeEvent} _.
Arguments apply {asset pension lifeEvent} _ _.
Arguments applyAll {asset pension lifeEvent} _ _.

End Dashboard.

(** ** The entry forms

    Each form validates its values against a schema and, only when they
    pass, builds the entry ([{ id: uuidv4(), ...values }]) and hands it to
    [onSubmit].  Values are modelled after coercion to numbers; names are
    sequences of code units; the fresh identifier is an argument. *)

Module PensionForm.

Inductive PensionType : Set := SocialSecurity | JPPension | PrivateAnnuity | Other.
Inductive Currency : Set := USD | JPY.

Record Values : Type := {
  name : string;
  type : PensionType;
  start_age : Q;
  monthly_amount_estimated : Q;
  currency : Currency;
  is_inflation_adjusted : bool
}.

(** [name: z.string().min(2)], [start_age: z.coerce.number().min(50).max(80)],
    [monthly_amount_estimated: z.coerce.number().min(0)]; the enumerated and
    boolean fields cannot be ill-formed. *)
Definition formSchema (v : Values) : bool :=
  (2 <=? String.length (name v))%nat
  && Qle_bool 50 (start_age v) && Qle_bool (start_age v) 80
  && Qle_bool 0 (monthly_amount_estimated v).

Definition defaultValues : Values :=
  {| name := "";
     type := SocialSecurity;
     start_age := 65;
     monthly_amount_estimated := 0;
     currency := USD;
     is_inflation_adjusted := true |}.

Record Submitted : Type := {
  id : string;
  values : Values
}.

Definition handleSubmit (uuid : string) (v : Values) : Submitted :=
  {| id := uuid; values := v |}.

(** [form.handleSubmit(handleSubmit)]: what reaches [onSubmit], if
    anything. *)
Definition submit (uuid : string) (v : Values) : option Submitted :=
  if formSchema v then Some (handleSubmit uuid v) else None.

End PensionForm.

Module AssetForm.

Inductive AssetType : Set :=
| T401k | IRA | RothIRA | Brokerage | Crypto | RealEstate | Cash | Other.
Inductive Currency : Set := USD | JPY.

Record Values : Type := {
  name : string;
  type : AssetType;
  current_value : Q;
  currency : Currency;
  contribution_monthly : Q;
  expected_return_rate : Q;
  withdrawal_start_age : option Q;
  withdrawal_rate : option Q
}.

(** [z.number().min(0).max(1).optional()]. *)
Definition optionalRate (x : option Q) : bool :=
  match x with
  | Some v => Qle_bool 0 v && Qle_bool v 1
  | None => true
  end.

Definition formSchema (v : Values) : bool :=
  (2 <=? String.length (name v))%nat
  && Qle_bool 0 (current_value v)
  && Qle_bool 0 (contribution_monthly v)
  && Qle_bool 0 (expected_return_rate v) && Qle_bool (expected_return_rate v) 1
  && optionalRate (withdrawal_rate v).

Record Submitted : Type := {
  id : string;
  values : Values;
  contribution_currency : Currency;
  is_taxable : bool
}.

(** [values.type !== "401k" && values.type !== "IRA" && values.type !== "RothIRA"]. *)
Definition isNot (a b : AssetType) : bool :=
  match a, b with
  | T401k, T401k | IRA, IRA | RothIRA, RothIRA | Brokerage, Brokerage
  | Crypto, Crypto | RealEstate, RealEstate | Cash, Cash | Other, Other => false
  | _, _ => true
  end.

Definition handleSubmit (uuid : string) (v : Values) : Submitted :=
  {| id := uuid;
     values := v;
     contribution_currency := currency v;
     is_taxable := isNot (type v) T401k && isNot (type v) IRA && isNot (type v) RothIRA |}.

Definition submit (uuid : string) (v : Values) : option Submitted :=
  if formSchema v then Some (handleSubmit uuid v) else None.

End AssetForm.

(** Sample form entries. *)
Definition samplePensionValues : PensionForm.Values :=
  {| PensionForm.name := "Nenkin";
     PensionForm.type := PensionForm.JPPension;
     PensionForm.start_age := 65;
     PensionForm.monthly_amount_estimated := 90000;
     PensionForm.currency := PensionForm.JPY;
     PensionForm.is_inflation_adjusted := true |}.

Definition sampleSubmittedPension : PensionForm.Submitted :=
  PensionForm.handleSubmit "id-1" samplePensionValues.

Definition samplePensionEdits
    : list (Dashboard.Edit string PensionForm.Submitted string) :=
  [Dashboard.AddPension string PensionForm.Submitted string sampleSubmittedPension;
   Dashboard.EditBirthYear string PensionForm.Submitted string None].

Definition sampleAssetValues : AssetForm.Values :=
  {| AssetForm.name := "Fidelity 401k";
     AssetForm.type := AssetForm.T401k;
     AssetForm.current_value := 100000;
     AssetForm.currency := AssetForm.USD;
     AssetForm.contribution_monthly := 1000;
     AssetForm.expected_return_rate := 5 # 100;
     AssetForm.withdrawal_start_age := Some 65;
     AssetForm.withdrawal_rate := Some (4 # 100) |}.

(** [after] is [before] with the entry at [index] taken out, or [before]
    itself when there is no such entry. *)
Definition removedAt {A : Type} (index : nat) (before after : list A) : Prop :=
  (index < length before -> length after = length before - 1)%nat /\
  (forall j, (j < index)%nat -> after !! j = before !! j) /\
  (forall j, (index <= j)%nat -> after !! j = before !! S j) /\
  (length before <= index -> after = before)%nat.

(** A dashboard over entries named by strings, for examples. *)
Definition sampleDashboard : Dashboard.State string string string :=
  Dashboard.applyAll (Dashboard.initialState string string string)
    [Dashboard.AddAsset string string string "401k"%string;
     Dashboard.AddPension string string string "SocialSecurity"%string;
     Dashboard.AddPension string string string "Nenkin"%string;
     Dashboard.EditSpouseBirthYear string string string (Some 1978%Z)].

(** ** Rates at which the factor is well conditioned

    The rate 0, and every rate from 0.1 % (the step of the rate field)
    upwards.  For a positive rate far below that, [1 + r] rounds to [1] in
    binary64 and [1 - Math.pow(1 + r, -n)] cancels. *)
Definition wellConditionedRate (interestRate : Q) : Prop :=
  interestRate == 0 \/ 1 # 10 <= interestRate.

(** ** Property reads on a parsed object *)

Module JSObject.

(** The property names every object created by [JSON.parse] inherits from
    [Object.prototype]. *)
Definition prototypeKeys : list string :=
  ["constructor"; "hasOwnProperty"; "isPrototypeOf"; "propertyIsEnumerable";
   "toLocaleString"; "toString"; "valueOf"; "__defineGetter__";
   "__defineSetter__"; "__lookupGetter__"; "__lookupSetter__"; "__proto__"]%string.

(** What [obj[key]] evaluates to: a stored number, a function or object found
    on the prototype, or [undefined]. *)
Inductive Read : Type :=
| Own (value : Q)
| Inherited
| Absent.

Definition get (obj : gmap string Q) (key : string) : Read :=
  match obj !! key with
  | Some value => Own value
  | None => if bool_decide (key ∈ prototypeKeys) then Inherited else Absent
  end.

End JSObject.

(** [targetResult.pension_incomes[pension.name] || 0] as a factor of the
    products that follow: a number, or, when the read found a function or an
    object on the prototype (truthy, so kept by [||]), something whose every
    product is NaN. *)
Inductive Amount : Type :=
| Number (value : Q)
| NotANumber.

Definition annualAmountRead (target : SimulationResult) (pension : Pension.t) : Amount :=
  match JSObject.get (pension_incomes target) (Pension.name pension) with
  | JSObject.Own value => Number (JS.or_num (Some value) 0)
  | JSObject.Absent => Number 0
  | JSObject.Inherited => NotANumber
  end.

(** The read of this pension's income does not end on the prototype. *)
Definition readsNumber (target : SimulationResult) (pension : Pension.t) : Prop :=
  JSObject.get (pension_incomes target) (Pension.name pension) <> JSObject.Inherited.

(** ** The two factor formulas over binary64 numbers

    The same two expressions with IEEE 754 binary64 division, addition,
    subtraction and comparison.  The remaining duration is an integer, as the
    component computes it; [Math.pow], whose result the language leaves to the
    implementation, is a parameter. *)

Module Double.

Import Floats.
Local Open Scope float_scope.

Definition number : Set := float.

Definition zero : number := 0.
Definition one : number := 1.
Definition hundred : number := 100.

(** 1e-323, a positive subnormal number; and 2^-50, about 8.9e-16. *)
Definition subnormalRate : number := 0x1p-1073.
Definition tinyRate : number := 0x1p-50.

(** A non-negative integer as a number. *)
Definition ofInteger (z : Z) : number := PrimFloat.of_uint63 (Uint63.of_Z z).

Section Formulas.

Variable pow : number -> Z -> number.

(** [r = interestRate / 100; if (r === 0) pvFactor = n;
     else pvFactor = (1 - Math.pow(1 + r, -n)) / r]. *)
Definition pvFactor (interestRate : number) (n : Z) : number :=
  let r := interestRate / hundred in
  if PrimFloat.eqb r zero then ofInteger n
  else (one - pow (one + r) (- n)) / r.

(** [interestRate > 0
       ? (1 - Math.pow(1 + interestRate / 100, -remainingYears)) / (interestRate / 100)
       : remainingYears]. *)
Definition pvFactorPreview (interestRate : number) (remainingYears : Z) : number :=
  if PrimFloat.ltb zero interestRate
  then (one - pow (one + interestRate / hundred) (- remainingYears))
       / (interestRate / hundred)
  else ofInteger remainingYears.

End Formulas.

(** One implementation of [Math.pow] for integral exponents, by repeated
    multiplication; an engine's results may differ from it in the last
    bits, not at base 1. *)
Definition powInt (base : number) (exponent : Z) : number :=
  match exponent with
  | Z0 => one
  | Zpos p => Pos.iter (PrimFloat.mul base) one p
  | Zneg p => one / Pos.iter (PrimFloat.mul base) one p
  end.

End Double.

(** ** Sample data for the edge cases *)

(** A pension entered under the name of an inherited property, after the
    projection was run. *)
Definition samplePensionNamedConstructor : Pension.t :=
  {| Pension.id := None;
     Pension.name := "constructor";
     Pension.currency := "USD";
     Pension.monthly_amount_estimated := 1000;
     Pension.start_age := 65;
     Pension.is_inflation_adjusted := false |}.

(** A pension that the projection of 2035 does not know. *)
Definition samplePensionNotProjected : Pension.t :=
  {| Pension.id := None;
     Pension.name := "Nenkin";
     Pension.currency := "JPY";
     Pension.monthly_amount_estimated := 90000;
     Pension.start_age := 65;
     Pension.is_inflation_adjusted := true |}.

(** Inheritance in 2035 with a spouse life-expectancy age of 60, the age the
    spouse has that year. *)
Definition sampleStateExpired : Estimator.State :=
  {| Estimator.inheritanceYear := 2035;
     Estimator.interestRate := 25 # 10;
     Estimator.spouseLifeExpectancyAge := 60;
     Estimator.numberOfHeirs := 2;
     Estimator.calculationExchangeRate := 150 |}.

(** A load body that carries pensions only. *)
Definition samplePartialLoad : Dashboard.LoadResponse string string string :=
  {| Dashboard.status := None;
     Dashboard.message := None;
     Dashboard.loaded_assets := None;
     Dashboard.loaded_pensions := Some ["Kosei Nenkin"%string];
     Dashboard.loaded_life_events := None;
     Dashboard.loaded_profile := None |}.

(** * Properties *)

(** ** The present-value factor *)

Section PvFactor.

Variable interestRate : Q.
Local Abbreviation r := (interestRate / 100).

Lemma rate_zero_iff : r == 0 <-> interestRate == 0.
Proof.
  split; intros H.
  - assert (E : interestRate == interestRate / 100 * 100) by field.
    rewrite E, H. reflexivity.
  - rewrite H. reflexivity.
Qed.

Lemma pvFactor_zero_rate n : r == 0 -> pvFactor interestRate n = inject_Z n.
Proof.
  intros H. unfold pvFactor.
  apply Qeq_bool_iff in H. rewrite H. reflexivity.
Qed.

Lemma pvFactor_nonzero_rate n :
  ~ r == 0 -> pvFactor interestRate n = (1 - (1 + r) ^ (- n)) / r.
Proof.
  intros H. unfold pvFactor.
  destruct (Qeq_bool r 0) eqn:E; [ | reflexivity ].
  apply Qeq_bool_iff in E. contradiction.
Qed.

Hypothesis rate_nonneg : 0 <= interestRate.



Lemma annuity_zero_rate k : r == 0 -> annuityPresentValue r k == inject_Z (Z.of_nat k).
Proof.
  intros H. induction k as [ | k IH ].
  - reflexivity.
  - change (annuityPresentValue r (S k))
      with (annuityPresentValue r k + / (1 + r) ^ Z.of_nat (S k)).
    rewrite IH, H, Qplus_0_r, Qpower_1, Nat2Z.inj_succ.
    unfold Z.succ. rewrite inject_Z_plus. field.
Qed.



End PvFactor.

Lemma wellConditioned_nonneg (interestRate : Q) :
  wellConditionedRate interestRate -> 0 <= interestRate.
Proof.
  intros [ Hz | Hpos ]; [ rewrite Hz; apply Qle_refl | ].
  apply Qle_trans with (y := 1 # 10); [ discriminate | exact Hpos ].
Qed.

(** On a well-conditioned rate the guard of the preview ([interestRate > 0])
    and the guard of the valuation ([r === 0]) select the same branch. *)
Lemma preview_guard_is_core_guard (interestRate : Q) :
  wellConditionedRate interestRate ->
  JS.gt interestRate 0 = negb (Qeq_bool (interestRate / 100) 0).
Proof.
  intros Hrate. pose proof (wellConditioned_nonneg _ Hrate) as Hnn.
  unfold JS.gt. f_equal.
  destruct (Qeq_bool (interestRate / 100) 0) eqn:E.
  - apply Qeq_bool_iff in E. apply (proj1 (rate_zero_iff interestRate)) in E.
    apply Qle_bool_iff. rewrite E. apply Qle_refl.
  - apply Qeq_bool_neq in E.
    destruct (Qle_bool interestRate 0) eqn:L; [ | reflexivity ].
    apply Qle_bool_iff in L. exfalso.
    apply E, (proj2 (rate_zero_iff interestRate)).
    apply Qle_antisym; assumption.
Qed.

(** The labels of both estimators recompute what the valuation memo
    computed. *)
Lemma Estimator_remainingYears_eq props st :
  Estimator.remainingYears props st
  = remainingLifeExpectancy (Estimator.profile props) (Estimator.inheritanceYear st)
      (Estimator.spouseLifeExpectancyAge st).
Proof. reflexivity. Qed.

Lemma PensionEstimator_remainingYears_eq props st :
  PensionEstimator.remainingYears props st
  = remainingLifeExpectancy (PensionEstimator.profile props)
      (PensionEstimator.inheritanceYear st) (PensionEstimator.spouseLifeExpectancyAge st).
Proof. reflexivity. Qed.

Ltac same_branch Hrate :=
  unfold pvFactorPreview, pvFactor;
  rewrite (preview_guard_is_core_guard _ Hrate);
  destruct (Qeq_bool _ 0); reflexivity.

(** What the Calculation Parameters panel prints is the three-decimal
    rendering of the factor that priced the pension rows. *)
Lemma Estimator_shown_pvFactor props st view :
  wellConditionedRate (Estimator.interestRate st) ->
  Estimator.InheritanceCalculator props st = JS.Normal view ->
  Estimator.shownPvFactor view
  = JS.toFixed3
      (pvFactor (Estimator.interestRate st)
         (remainingLifeExpectancy (Estimator.profile props)
            (Estimator.inheritanceYear st) (Estimator.spouseLifeExpectancyAge st))).
Proof.
  intros Hrate [= <-]. simpl. rewrite Estimator_remainingYears_eq.
  f_equal. same_branch Hrate.
Qed.

Lemma PensionEstimator_shown_pvFactor props st view :
  wellConditionedRate (PensionEstimator.interestRate st) ->
  PensionEstimator.InheritanceCalculator props st = JS.Normal view ->
  PensionEstimator.shownPvFactor view
  = JS.toFixed3
      (pvFactor (PensionEstimator.interestRate st)
         (remainingLifeExpectancy (PensionEstimator.profile props)
            (PensionEstimator.inheritanceYear st)
            (PensionEstimator.spouseLifeExpectancyAge st))).
Proof.
  intros Hrate [= <-]. simpl. rewrite PensionEstimator_remainingYears_eq.
  f_equal. same_branch Hrate.
Qed.

(** In binary64, at the rate 2^-50 (about 8.9e-16 %), [1 + r] rounds to 1,
    the subtraction cancels and the valuation's factor is 0 for every
    duration, where the exact value is close to the duration. *)
Lemma pvFactor_cancels_at_tiny_rate (pow : Double.number -> Z -> Double.number) (n : Z) :
  (0 <= n)%Z ->
  pow Double.one (- n)%Z = Double.one ->
  Double.pvFactor pow Double.tinyRate n = Double.zero.
Proof.
  intros _ Hpow. unfold Double.pvFactor.
  change (PrimFloat.eqb (PrimFloat.div Double.tinyRate Double.hundred) Double.zero)
    with false.
  cbv iota.
  change (PrimFloat.add Double.one (PrimFloat.div Double.tinyRate Double.hundred))
    with Double.one.
  rewrite Hpow. reflexivity.
Qed.




(** C9. The claim fails on the component: at the positive subnormal rate
    1e-323 the division by 100 underflows to 0, so the valuation takes its
    [r === 0] branch and uses the number of remaining years, while the
    preview takes its [interestRate > 0] branch, divides 0 by 0 and shows
    NaN.  ([Math.pow(1, y)] is 1 for every finite [y].) *)
Theorem preview_is_NaN_at_subnormal_rate
    (pow : Double.number -> Z -> Double.number) (n : Z) :
  (0 <= n)%Z ->
  pow Double.one (- n)%Z = Double.one ->
  PrimFloat.ltb Double.zero Double.subnormalRate = true /\
  Double.pvFactor pow Double.subnormalRate n = Double.ofInteger n /\
  PrimFloat.is_nan (Double.pvFactorPreview pow Double.subnormalRate n) = true.
Proof.
  intros _ Hpow. split; [ reflexivity | ]. split.
  - unfold Double.pvFactor.
    change (PrimFloat.div Double.subnormalRate Double.hundred) with Double.zero.
    reflexivity.
  - unfold Double.pvFactorPreview.
    change (PrimFloat.ltb Double.zero Double.subnormalRate) with true. cbv iota.
    change (PrimFloat.div Double.subnormalRate Double.hundred) with Double.zero.
    change (PrimFloat.add Double.one Double.zero) with Double.one.
    rewrite Hpow. reflexivity.
Qed.

Lemma preview_is_NaN_at_subnormal_rate_witness :
  Double.pvFactor Double.powInt Double.subnormalRate 27 = Double.ofInteger 27 /\
  PrimFloat.is_nan (Double.pvFactorPreview Double.powInt Double.subnormalRate 27) = true.
Proof.
  apply (preview_is_NaN_at_subnormal_rate Double.powInt 27); [ lia | reflexivity ].
Defined.

(** ** Looking up the inheritance year *)

Lemma targetResult_absent (series : list SimulationResult) (y : Z) :
  (forall r, In r series -> year r <> y) -> targetResult series y = None.
Proof.
  unfold targetResult. induction series as [ | r rest IH ]; intros Habs.
  - reflexivity.
  - simpl. destruct (Z.eqb_spec (year r) y) as [E | _].
    + exfalso. apply (Habs r); [ left; reflexivity | exact E ].
    + apply IH. intros r' Hin. apply Habs. right. exact Hin.
Qed.

Lemma targetResult_found (series : list SimulationResult) (y : Z) (r : SimulationResult) :
  targetResult series y = Some r -> In r series /\ year r = y.
Proof.
  unfold targetResult. intros H. apply find_some in H.
  destruct H as [Hin Heq]. split; [ exact Hin | ]. apply Z.eqb_eq. exact Heq.
Qed.

Lemma Estimator_pensionValuations_absent props st :
  targetResult (Estimator.simulationResult props) (Estimator.inheritanceYear st) = None ->
  Estimator.pensionValuations props st = [].
Proof. intros H. unfold Estimator.pensionValuations. rewrite H. reflexivity. Qed.

Lemma Estimator_assetValuations_absent props st :
  targetResult (Estimator.simulationResult props) (Estimator.inheritanceYear st) = None ->
  Estimator.assetValuations props st = [].
Proof. intros H. unfold Estimator.assetValuations. rewrite H. reflexivity. Qed.

Lemma PensionEstimator_valuations_absent props st :
  targetResult (PensionEstimator.simulationResult props)
    (PensionEstimator.inheritanceYear st) = None ->
  PensionEstimator.valuations props st = [].
Proof. intros H. unfold PensionEstimator.valuations. rewrite H. reflexivity. Qed.

(** C2, as stated, asks for a NotFound failure when the year is missing;
    the sample series holds only 2035, the requested year is 2040, and both
    estimators complete normally. *)
Lemma absent_year_is_not_a_NotFound_failure :
  (forall r, In r (Estimator.simulationResult Sample.props) ->
             year r <> Estimator.inheritanceYear Sample.stateAbsentYear) /\
  Estimator.InheritanceCalculator Sample.props Sample.stateAbsentYear
    <> JS.Throw JS.NotFound /\
  PensionEstimator.InheritanceCalculator Sample.oldProps Sample.oldStateAbsentYear
    <> JS.Throw JS.NotFound.
Proof.
  split; [ | split; discriminate ].
  intros r [<- | []]. discriminate.
Qed.

(** C2 (amended). When no element of the series has the requested year,
    the estimator raises nothing: it completes normally with empty pension
    and asset tables, every subtotal and the grand total equal to zero, and
    the exemption limit still 5,000,000 JPY per heir.  The pension-only
    estimator likewise completes with an empty table and zero totals. *)
Theorem absent_year_yields_empty_valuation :
  (forall props st,
     (forall r, In r (Estimator.simulationResult props) ->
                year r <> Estimator.inheritanceYear st) ->
     exists view,
       Estimator.InheritanceCalculator props st = JS.Normal view /\
       Estimator.pensionRows view = [] /\
       Estimator.assetRows view = [] /\
       Estimator.pensionSubtotalUSD view = 0 /\
       Estimator.pensionSubtotalJPY view = 0 /\
       Estimator.assetSubtotalUSD view = 0 /\
       Estimator.assetSubtotalJPY view = 0 /\
       Estimator.grandTotalJPY view = 0 /\
       Estimator.shownExemptionLimit view = (5000000 * Estimator.numberOfHeirs st)%Z) /\
  (forall props st,
     (forall r, In r (PensionEstimator.simulationResult props) ->
                year r <> PensionEstimator.inheritanceYear st) ->
     exists view,
       PensionEstimator.InheritanceCalculator props st = JS.Normal view /\
       PensionEstimator.rows view = [] /\
       PensionEstimator.totalUSD view = 0 /\
       PensionEstimator.totalJPY view = 0).
Proof.
  split; intros props st Habs; apply targetResult_absent in Habs;
    eexists; (split; [ reflexivity | ]); simpl.
  - unfold Estimator.totalValuationJPY, Estimator.totalPensionValuationJPY,
      Estimator.totalAssetValuationJPY.
    rewrite (Estimator_pensionValuations_absent _ _ Habs),
      (Estimator_assetValuations_absent _ _ Habs).
    repeat split; reflexivity.
  - rewrite (PensionEstimator_valuations_absent _ _ Habs).
    repeat split; reflexivity.
Qed.

Lemma absent_year_yields_empty_valuation_witness :
  exists view,
    Estimator.InheritanceCalculator Sample.props Sample.stateAbsentYear
      = JS.Normal view /\
    Estimator.pensionRows view = [] /\
    Estimator.assetRows view = [] /\
    Estimator.pensionSubtotalUSD view = 0 /\
    Estimator.pensionSubtotalJPY view = 0 /\
    Estimator.assetSubtotalUSD view = 0 /\
    Estimator.assetSubtotalJPY view = 0 /\
    Estimator.grandTotalJPY view = 0 /\
    Estimator.shownExemptionLimit view = 10000000%Z.
Proof.
  apply (proj1 absent_year_yields_empty_valuation Sample.props Sample.stateAbsentYear).
  intros r [<- | []]. discriminate.
Defined.

(** ** Spouse age and remaining duration *)

Lemma or_int_present (y b : Z) : y <> 0%Z -> JS.or_int (Some y) b = y.
Proof.
  intros Hy. unfold JS.or_int. destruct (Z.eqb_spec y 0); [ contradiction | reflexivity ].
Qed.

Lemma or_int_zero (b : Z) : JS.or_int (Some 0%Z) b = JS.or_int None b.
Proof. reflexivity. Qed.

(** C6, as stated, takes [spouse_birth_year] whenever it is present; with a
    spouse birth year of 0 on a profile born in 1975, inheritance in 2035 and
    a life-expectancy age of 87, that reading gives max(0, 87 - 2035) = 0
    while the estimator shows 27 years. *)
Lemma remaining_years_with_zero_spouse_year :
  spouse_birth_year Sample.profileZeroSpouseYear = Some 0%Z /\
  Z.max 0 (87 - (2035 - 0)) = 0%Z /\
  remainingLifeExpectancy Sample.profileZeroSpouseYear 2035 87 = 27%Z /\
  remainingLifeExpectancy Sample.profileZeroSpouseYear 2035 87
    <> Z.max 0 (87 - (2035 - 0)).
Proof. repeat split. discriminate. Qed.

(** C6 (amended). The remaining annuity duration is
    max(0, spouseLifeExpectancyAge - (inheritanceYear - b)), where [b] is
    [spouse_birth_year] when that field is present and not 0, and
    [birth_year] when it is absent or 0; it is never negative, and it is 0
    whenever the spouse's age at inheritance reaches the life-expectancy
    age.  The labels of both estimators show the same duration. *)
Theorem remaining_years_clamped (profile : UserProfile) (inheritanceYear age : Z) :
  (forall y, spouse_birth_year profile = Some y -> y <> 0%Z ->
     remainingLifeExpectancy profile inheritanceYear age
     = Z.max 0 (age - (inheritanceYear - y))) /\
  (spouse_birth_year profile = None \/ spouse_birth_year profile = Some 0%Z ->
     remainingLifeExpectancy profile inheritanceYear age
     = Z.max 0 (age - (inheritanceYear - birth_year profile))) /\
  (0 <= remainingLifeExpectancy profile inheritanceYear age)%Z /\
  ((age <= spouseAgeAtInheritance profile inheritanceYear)%Z ->
     remainingLifeExpectancy profile inheritanceYear age = 0%Z) /\
  (forall props st,
     Estimator.profile props = profile ->
     Estimator.inheritanceYear st = inheritanceYear ->
     Estimator.spouseLifeExpectancyAge st = age ->
     Estimator.remainingYears props st
     = remainingLifeExpectancy profile inheritanceYear age) /\
  (forall props st,
     PensionEstimator.profile props = profile ->
     PensionEstimator.inheritanceYear st = inheritanceYear ->
     PensionEstimator.spouseLifeExpectancyAge st = age ->
     PensionEstimator.remainingYears props st
     = remainingLifeExpectancy profile inheritanceYear age).
Proof.
  unfold remainingLifeExpectancy, spouseAgeAtInheritance.
  split; [ | split; [ | split; [ | split; [ | split ] ] ] ].
  - intros y Hy Hnz. rewrite Hy, (or_int_present _ _ Hnz). reflexivity.
  - intros [H | H]; rewrite H; reflexivity.
  - apply Z.le_max_l.
  - intros Hage. apply Z.max_l. lia.
  - intros props st <- <- <-. reflexivity.
  - intros props st <- <- <-. reflexivity.
Qed.

Lemma remaining_years_clamped_witness :
  remainingLifeExpectancy Sample.profile 2035 87 = 27%Z /\
  remainingLifeExpectancy Sample.profile 2070 87 = 0%Z.
Proof.
  split.
  - apply (proj1 (remaining_years_clamped Sample.profile 2035 87) 1975%Z);
      [ reflexivity | lia ].
  - apply (proj1 (proj2 (proj2 (proj2 (remaining_years_clamped Sample.profile 2070 87))))).
    vm_compute. discriminate.
Defined.

(** C10. A profile whose [spouse_birth_year] is present but 0 is treated as
    a profile without that field: the spouse's age at inheritance is computed
    from [birth_year], and everything either estimator renders is unchanged. *)
Theorem zero_spouse_birth_year_falls_back (profile : UserProfile) (inheritanceYear : Z) :
  spouse_birth_year profile = Some 0%Z ->
  spouseAgeAtInheritance profile inheritanceYear
    = (inheritanceYear - birth_year profile)%Z /\
  spouseAgeAtInheritance profile inheritanceYear
    = spouseAgeAtInheritance (withoutSpouseBirthYear profile) inheritanceYear /\
  (forall props st,
     Estimator.profile props = profile ->
     Estimator.inheritanceYear st = inheritanceYear ->
     Estimator.spouseAge props st = (inheritanceYear - birth_year profile)%Z /\
     Estimator.InheritanceCalculator props st
     = Estimator.InheritanceCalculator
         (Estimator_withProfile props (withoutSpouseBirthYear profile)) st) /\
  (forall props st,
     PensionEstimator.profile props = profile ->
     PensionEstimator.inheritanceYear st = inheritanceYear ->
     PensionEstimator.spouseAge props st = (inheritanceYear - birth_year profile)%Z /\
     PensionEstimator.InheritanceCalculator props st
     = PensionEstimator.InheritanceCalculator
         (PensionEstimator_withProfile props (withoutSpouseBirthYear profile)) st).
Proof.
  intros Hzero. unfold spouseAgeAtInheritance. rewrite Hzero. simpl.
  split; [ reflexivity | ]. split; [ reflexivity | ]. split.
  - intros props st <- <-. split.
    + unfold Estimator.spouseAge. rewrite Hzero. reflexivity.
    + unfold Estimator.InheritanceCalculator, Estimator.totalValuationJPY,
        Estimator.totalPensionValuationJPY, Estimator.totalAssetValuationJPY,
        Estimator.pensionValuations, Estimator.assetValuations,
        Estimator.remainingYears, Estimator.spouseAge,
        remainingLifeExpectancy, spouseAgeAtInheritance.
      simpl. rewrite Hzero. reflexivity.
  - intros props st <- <-. split.
    + unfold PensionEstimator.spouseAge. rewrite Hzero. reflexivity.
    + unfold PensionEstimator.InheritanceCalculator, PensionEstimator.valuations,
        PensionEstimator.remainingYears, PensionEstimator.spouseAge,
        remainingLifeExpectancy, spouseAgeAtInheritance.
      simpl. rewrite Hzero. reflexivity.
Qed.

Lemma zero_spouse_birth_year_falls_back_witness :
  spouseAgeAtInheritance Sample.profileZeroSpouseYear 2035 = 60%Z.
Proof.
  apply (zero_spouse_birth_year_falls_back Sample.profileZeroSpouseYear 2035).
  reflexivity.
Defined.

(** ** Rows of the valuation tables *)

Lemma or_num_default (o : option Q) : JS.or_num o 0 == default 0 o.
Proof.
  destruct o as [ v | ]; simpl; [ | reflexivity ].
  destruct (Qeq_bool v 0) eqn:E; [ | reflexivity ].
  apply Qeq_bool_iff in E. symmetry. exact E.
Qed.

Lemma lookup_map {A B : Type} (f : A -> B) (l : list A) (i : nat) :
  List.map f l !! i = f <$> (l !! i).
Proof.
  revert i. induction l as [ | x l IH ]; intros [ | i ]; simpl; try reflexivity.
  apply IH.
Qed.

Section PensionRows.

Variables (target : SimulationResult) (factor rate : Q).

Lemma pensionRow_name p :
  PensionValuation.name (pensionRow target factor rate p) = Pension.name p.
Proof. reflexivity. Qed.

Lemma pensionRow_annual p :
  PensionValuation.annualAmountUSD (pensionRow target factor rate p)
  == default 0 (pension_incomes target !! Pension.name p).
Proof. apply or_num_default. Qed.

Lemma pensionRow_usd p :
  PensionValuation.valuationUSD (pensionRow target factor rate p)
  = PensionValuation.annualAmountUSD (pensionRow target factor rate p) * factor.
Proof. reflexivity. Qed.

Lemma pensionRow_jpy p :
  PensionValuation.valuationJPY (pensionRow target factor rate p)
  = PensionValuation.valuationUSD (pensionRow target factor rate p) * rate.
Proof. reflexivity. Qed.

Lemma pensionRows_linear (ps : list Pension.t) :
  Forall (fun row => PensionValuation.valuationJPY row
                     = PensionValuation.valuationUSD row * rate)
         (List.map (pensionRow target factor rate) ps).
Proof.
  induction ps as [ | p ps IH ]; simpl; constructor.
  - apply pensionRow_jpy.
  - exact IH.
Qed.

End PensionRows.

Lemma assetRows_linear (rate : Q) (entries : list (string * Q)) :
  Forall (fun row => AssetValuation.valuationJPY row
                     = AssetValuation.valuationUSD row * rate)
         (List.map (assetRow rate) entries).
Proof.
  induction entries as [ | [name balance] entries IH ]; simpl; constructor.
  - reflexivity.
  - exact IH.
Qed.

Lemma Estimator_pension_linear props st :
  Forall (fun row => PensionValuation.valuationJPY row
                     = PensionValuation.valuationUSD row
                       * Estimator.calculationExchangeRate st)
         (Estimator.pensionValuations props st).
Proof.
  unfold Estimator.pensionValuations.
  destruct (targetResult _ _); [ apply pensionRows_linear | constructor ].
Qed.

Lemma Estimator_asset_linear props st :
  Forall (fun row => AssetValuation.valuationJPY row
                     = AssetValuation.valuationUSD row
                       * Estimator.calculationExchangeRate st)
         (Estimator.assetValuations props st).
Proof.
  unfold Estimator.assetValuations.
  destruct (targetResult _ _) as [ target | ]; [ | constructor ].
  destruct (asset_balances target); [ apply assetRows_linear | constructor ].
Qed.

Lemma PensionEstimator_linear props st :
  Forall (fun row => PensionValuation.valuationJPY row
                     = PensionValuation.valuationUSD row
                       * PensionEstimator.exchangeRate props)
         (PensionEstimator.valuations props st).
Proof.
  unfold PensionEstimator.valuations.
  destruct (targetResult _ _); [ apply pensionRows_linear | constructor ].
Qed.

Lemma annualAmountRead_is_row_amount (target : SimulationResult) (factor rate : Q)
    (pension : Pension.t) :
  readsNumber target pension ->
  annualAmountRead target pension
  = Number (PensionValuation.annualAmountUSD (pensionRow target factor rate pension)).
Proof.
  unfold readsNumber, annualAmountRead, JSObject.get, pensionRow. simpl.
  destruct (pension_incomes target !! Pension.name pension) as [ value | ].
  - intros _. reflexivity.
  - destruct (bool_decide _); [ intros H; contradiction | intros _; reflexivity ].
Qed.

(** C3. The claim fails on the component for a pension whose name is a
    property every object inherits ("constructor", "toString", ...) and that
    the year's [pension_incomes] does not store: the read finds the inherited
    function, [|| 0] keeps it, and the annual amount is not the 0 the claim
    states but something that turns both valuations into NaN. *)
Theorem inherited_name_is_not_read_as_zero
    (target : SimulationResult) (pension : Pension.t) :
  Pension.name pension ∈ JSObject.prototypeKeys ->
  pension_incomes target !! Pension.name pension = None ->
  annualAmountRead target pension = NotANumber /\
  annualAmountRead target pension <> Number 0.
Proof.
  intros Hkey Habsent.
  assert (Hread : annualAmountRead target pension = NotANumber).
  { unfold annualAmountRead, JSObject.get. rewrite Habsent.
    rewrite (bool_decide_eq_true_2 _ Hkey). reflexivity. }
  split; [ exact Hread | ]. rewrite Hread. discriminate.
Qed.

Lemma inherited_name_is_not_read_as_zero_witness :
  annualAmountRead Sample.year2035 samplePensionNamedConstructor = NotANumber /\
  annualAmountRead Sample.year2035 samplePensionNamedConstructor <> Number 0.
Proof.
  apply (inherited_name_is_not_read_as_zero Sample.year2035
           samplePensionNamedConstructor).
  - vm_compute. constructor.
  - vm_compute. reflexivity.
Defined.

(** X23. For the found year, the i-th pension of the input list yields the
    i-th row.  When the read of its income does not end on the prototype
    (its name is stored for that year, or is not an inherited property
    name), the row's [annualAmountUSD] is the value read: the stored value,
    or 0 when the name is absent; [valuationUSD] is [annualAmountUSD] times
    the PV factor and [valuationJPY] is [valuationUSD] times the exchange
    rate (the editable rate in the estimator with assets, the simulation
    rate in the pension-only estimator). *)
Theorem pension_row_when_read_is_numeric :
  (forall props st target (i : nat) pension,
     targetResult (Estimator.simulationResult props) (Estimator.inheritanceYear st)
       = Some target ->
     Estimator.pensions props !! i = Some pension ->
     readsNumber target pension ->
     exists row,
       Estimator.pensionValuations props st !! i = Some row /\
       PensionValuation.name row = Pension.name pension /\
       annualAmountRead target pension
         = Number (PensionValuation.annualAmountUSD row) /\
       PensionValuation.annualAmountUSD row
         == default 0 (pension_incomes target !! Pension.name pension) /\
       PensionValuation.valuationUSD row
         = PensionValuation.annualAmountUSD row
           * pvFactor (Estimator.interestRate st)
               (remainingLifeExpectancy (Estimator.profile props)
                  (Estimator.inheritanceYear st) (Estimator.spouseLifeExpectancyAge st)) /\
       PensionValuation.valuationJPY row
         = PensionValuation.valuationUSD row * Estimator.calculationExchangeRate st) /\
  (forall props st target (i : nat) pension,
     targetResult (PensionEstimator.simulationResult props)
       (PensionEstimator.inheritanceYear st) = Some target ->
     PensionEstimator.pensions props !! i = Some pension ->
     readsNumber target pension ->
     exists row,
       PensionEstimator.valuations props st !! i = Some row /\
       PensionValuation.name row = Pension.name pension /\
       annualAmountRead target pension
         = Number (PensionValuation.annualAmountUSD row) /\
       PensionValuation.annualAmountUSD row
         == default 0 (pension_incomes target !! Pension.name pension) /\
       PensionValuation.valuationUSD row
         = PensionValuation.annualAmountUSD row
           * pvFactor (PensionEstimator.interestRate st)
               (remainingLifeExpectancy (PensionEstimator.profile props)
                  (PensionEstimator.inheritanceYear st)
                  (PensionEstimator.spouseLifeExpectancyAge st)) /\
       PensionValuation.valuationJPY row
         = PensionValuation.valuationUSD row * PensionEstimator.exchangeRate props).
Proof.
  split; intros props st target i pension Hfound Hpension Hread.
  - unfold Estimator.pensionValuations. rewrite Hfound.
    eexists. split; [ rewrite lookup_map, Hpension; reflexivity | ].
    split; [ apply pensionRow_name | ].
    split; [ apply annualAmountRead_is_row_amount; exact Hread | ].
    split; [ apply pensionRow_annual | ].
    split; [ apply pensionRow_usd | apply pensionRow_jpy ].
  - unfold PensionEstimator.valuations. rewrite Hfound.
    eexists. split; [ rewrite lookup_map, Hpension; reflexivity | ].
    split; [ apply pensionRow_name | ].
    split; [ apply annualAmountRead_is_row_amount; exact Hread | ].
    split; [ apply pensionRow_annual | ].
    split; [ apply pensionRow_usd | apply pensionRow_jpy ].
Qed.

Lemma pension_row_when_read_is_numeric_witness :
  exists row,
    Estimator.pensionValuations Sample.props Sample.state !! 0%nat = Some row /\
    PensionValuation.name row = "SocialSecurity"%string /\
    annualAmountRead Sample.year2035 Sample.socialSecurity
      = Number (PensionValuation.annualAmountUSD row) /\
    PensionValuation.annualAmountUSD row
      == default 0 (pension_incomes Sample.year2035 !! "SocialSecurity"%string) /\
    PensionValuation.valuationUSD row
      = PensionValuation.annualAmountUSD row * pvFactor (25 # 10) 27 /\
    PensionValuation.valuationJPY row = PensionValuation.valuationUSD row * 150.
Proof.
  apply (proj1 pension_row_when_read_is_numeric Sample.props Sample.state
           Sample.year2035 0%nat Sample.socialSecurity);
    [ reflexivity | reflexivity | ].
  vm_compute. discriminate.
Defined.

Lemma assetRow_of_entry (rate : Q) (balances : gmap string Q) (name : string) (balance : Q) :
  balances !! name = Some balance ->
  In (assetRow rate (name, balance)) (List.map (assetRow rate) (map_to_list balances)).
Proof.
  intros Hlook. apply in_map. apply list_elem_of_In.
  apply elem_of_map_to_list. exact Hlook.
Qed.

Lemma assetRow_from_entry (rate : Q) (balances : gmap string Q) (row : AssetValuation.t) :
  In row (List.map (assetRow rate) (map_to_list balances)) ->
  balances !! AssetValuation.name row = Some (AssetValuation.balanceUSD row) /\
  AssetValuation.valuationUSD row = AssetValuation.balanceUSD row /\
  AssetValuation.valuationJPY row = AssetValuation.balanceUSD row * rate.
Proof.
  intros Hin. apply in_map_iff in Hin. destruct Hin as [[name balance] [<- Hentry]].
  apply list_elem_of_In, elem_of_map_to_list in Hentry.
  split; [ exact Hentry | split; reflexivity ].
Qed.

(** C4. For the found year, every entry (name, balance) of its
    [asset_balances] map has a row in the asset table whose USD valuation is
    the balance itself and whose JPY valuation is the balance times the
    exchange rate; the table has no other rows. *)
Theorem asset_valuation_row props st target (balances : gmap string Q) :
  targetResult (Estimator.simulationResult props) (Estimator.inheritanceYear st)
    = Some target ->
  asset_balances target = Some balances ->
  (forall name balance,
     balances !! name = Some balance ->
     exists row,
       In row (Estimator.assetValuations props st) /\
       AssetValuation.name row = name /\
       AssetValuation.balanceUSD row = balance /\
       AssetValuation.valuationUSD row = balance /\
       AssetValuation.valuationJPY row
         = balance * Estimator.calculationExchangeRate st) /\
  (forall row,
     In row (Estimator.assetValuations props st) ->
     balances !! AssetValuation.name row = Some (AssetValuation.balanceUSD row) /\
     AssetValuation.valuationUSD row = AssetValuation.balanceUSD row /\
     AssetValuation.valuationJPY row
       = AssetValuation.balanceUSD row * Estimator.calculationExchangeRate st) /\
  length (Estimator.assetValuations props st) = size balances.
Proof.
  intros Hfound Hbalances. unfold Estimator.assetValuations.
  rewrite Hfound, Hbalances. split; [ | split ].
  - intros name balance Hlook.
    exists (assetRow (Estimator.calculationExchangeRate st) (name, balance)).
    split; [ apply assetRow_of_entry; exact Hlook | ].
    repeat split.
  - apply assetRow_from_entry.
  - rewrite length_map. apply length_map_to_list.
Qed.

Lemma asset_valuation_row_witness :
  exists row,
    In row (Estimator.assetValuations Sample.props Sample.state) /\
    AssetValuation.name row = "401k"%string /\
    AssetValuation.balanceUSD row = 500000 /\
    AssetValuation.valuationUSD row = 500000 /\
    AssetValuation.valuationJPY row = 500000 * 150.
Proof.
  apply (proj1 (asset_valuation_row Sample.props Sample.state Sample.year2035
                  {[ "401k"%string := 500000 ]} eq_refl eq_refl)).
  vm_compute. reflexivity.
Defined.

(** ** Totals *)

Lemma fold_sum_shift {A : Type} (f : A -> Q) (l : list A) (acc : Q) :
  fold_left (fun sum v => sum + f v) l acc == acc + Qsum (List.map f l).
Proof.
  revert acc. induction l as [ | x l IH ]; intros acc; simpl.
  - rewrite Qplus_0_r. reflexivity.
  - rewrite IH. rewrite Qplus_assoc. reflexivity.
Qed.

Lemma reduce_sum_Qsum {A : Type} (f : A -> Q) (l : list A) :
  JS.reduce_sum f l == Qsum (List.map f l).
Proof.
  unfold JS.reduce_sum. rewrite fold_sum_shift. apply Qplus_0_l.
Qed.

Lemma Qsum_pointwise {A : Type} (f g : A -> Q) (l : list A) :
  (forall x, In x l -> f x == g x) ->
  Qsum (List.map f l) == Qsum (List.map g l).
Proof.
  induction l as [ | x l IH ]; intros H; simpl.
  - reflexivity.
  - rewrite (H x), IH; [ reflexivity | | left; reflexivity ].
    intros y Hy. apply H. right. exact Hy.
Qed.

Lemma Qsum_scaled {A : Type} (f : A -> Q) (c : Q) (l : list A) :
  Qsum (List.map (fun x => f x * c) l) == Qsum (List.map f l) * c.
Proof.
  induction l as [ | x l IH ]; simpl.
  - rewrite Qmult_0_l. reflexivity.
  - rewrite IH. ring.
Qed.

Lemma reduce_sum_scaled {A : Type} (f g : A -> Q) (c : Q) (l : list A) :
  List.Forall (fun x => g x = f x * c) l ->
  JS.reduce_sum g l == JS.reduce_sum f l * c.
Proof.
  intros H. rewrite !reduce_sum_Qsum, <- Qsum_scaled.
  apply Qsum_pointwise. intros x Hx.
  rewrite (proj1 (List.Forall_forall _ _) H x Hx). reflexivity.
Qed.

Lemma reduce_sum_zero {A : Type} (f : A -> Q) (l : list A) :
  List.Forall (fun x => f x == 0) l -> JS.reduce_sum f l == 0.
Proof.
  intros H. rewrite reduce_sum_Qsum.
  induction H as [ | x l Hx _ IH ]; simpl; [ reflexivity | ].
  rewrite Hx, IH. reflexivity.
Qed.

Lemma pension_total_from_inputs props st target :
  targetResult (Estimator.simulationResult props) (Estimator.inheritanceYear st)
    = Some target ->
  Qsum (List.map PensionValuation.valuationJPY (Estimator.pensionValuations props st))
  == Qsum (List.map
             (fun p => default 0 (pension_incomes target !! Pension.name p)
                       * pvFactor (Estimator.interestRate st)
                           (Estimator.remainingYears props st)
                       * Estimator.calculationExchangeRate st)
             (Estimator.pensions props)).
Proof.
  intros Hfound. unfold Estimator.pensionValuations. rewrite Hfound.
  rewrite List.map_map. apply Qsum_pointwise. intros p _. simpl.
  rewrite or_num_default. reflexivity.
Qed.

Lemma asset_total_from_inputs props st target :
  targetResult (Estimator.simulationResult props) (Estimator.inheritanceYear st)
    = Some target ->
  Qsum (List.map AssetValuation.valuationJPY (Estimator.assetValuations props st))
  == Qsum (List.map (fun entry => snd entry * Estimator.calculationExchangeRate st)
             (map_to_list (default ∅ (asset_balances target)))).
Proof.
  intros Hfound. unfold Estimator.assetValuations. rewrite Hfound.
  destruct (asset_balances target) as [ balances | ]; simpl.
  - rewrite List.map_map. apply Qsum_pointwise. intros [name balance] _. reflexivity.
  - rewrite map_to_list_empty. reflexivity.
Qed.

(** C5. Every run renders the computed pension and asset valuations, a
    grand total in JPY equal to the sum of the JPY valuations of the pensions
    plus the sum of the JPY valuations of the assets, and an exemption limit
    of 5,000,000 JPY times the number of statutory heirs.  In terms of the
    inputs, for the found year and pensions whose income read is numeric: the
    grand total is the sum over the pensions of income times PV factor times
    rate, plus the sum over the year's asset balances of balance times
    rate. *)
Theorem grand_total_and_exemption props st :
  exists view,
    Estimator.InheritanceCalculator props st = JS.Normal view /\
    Estimator.pensionRows view = Estimator.pensionValuations props st /\
    Estimator.assetRows view = Estimator.assetValuations props st /\
    Estimator.grandTotalJPY view
      == Qsum (List.map PensionValuation.valuationJPY
                 (Estimator.pensionValuations props st))
         + Qsum (List.map AssetValuation.valuationJPY
                   (Estimator.assetValuations props st)) /\
    Estimator.grandTotalJPY view
      = Estimator.pensionSubtotalJPY view + Estimator.assetSubtotalJPY view /\
    Estimator.shownExemptionLimit view = (5000000 * Estimator.numberOfHeirs st)%Z /\
    (forall target,
       targetResult (Estimator.simulationResult props) (Estimator.inheritanceYear st)
         = Some target ->
       List.Forall (readsNumber target) (Estimator.pensions props) ->
       Estimator.grandTotalJPY view
       == Qsum (List.map
                  (fun p => default 0 (pension_incomes target !! Pension.name p)
                            * pvFactor (Estimator.interestRate st)
                                (Estimator.remainingYears props st)
                            * Estimator.calculationExchangeRate st)
                  (Estimator.pensions props))
          + Qsum (List.map
                    (fun entry => snd entry * Estimator.calculationExchangeRate st)
                    (map_to_list (default ∅ (asset_balances target))))).
Proof.
  eexists. split; [ reflexivity | ]. simpl.
  assert (Htotal :
    Estimator.totalValuationJPY props st
    == Qsum (List.map PensionValuation.valuationJPY
               (Estimator.pensionValuations props st))
       + Qsum (List.map AssetValuation.valuationJPY
                 (Estimator.assetValuations props st))).
  { unfold Estimator.totalValuationJPY, Estimator.totalPensionValuationJPY,
      Estimator.totalAssetValuationJPY.
    rewrite !reduce_sum_Qsum. reflexivity. }
  split; [ reflexivity | ]. split; [ reflexivity | ].
  split; [ exact Htotal | ]. split; [ reflexivity | ]. split; [ reflexivity | ].
  intros target Hfound _.
  rewrite Htotal, (pension_total_from_inputs _ _ _ Hfound),
    (asset_total_from_inputs _ _ _ Hfound).
  reflexivity.
Qed.

Lemma grand_total_and_exemption_witness :
  exists view,
    Estimator.InheritanceCalculator Sample.props Sample.state = JS.Normal view /\
    length (Estimator.pensionRows view) = 1%nat /\
    length (Estimator.assetRows view) = 1%nat /\
    Estimator.grandTotalJPY view
      == 24000 * pvFactor (25 # 10) 27 * 150 + 500000 * 150 /\
    Estimator.shownExemptionLimit view = 10000000%Z.
Proof.
  destruct (grand_total_and_exemption Sample.props Sample.state)
    as (view & Hview & Hpensions & Hassets & _ & _ & Hlimit & Hinputs).
  exists view. split; [ exact Hview | ].
  split; [ rewrite Hpensions; reflexivity | ].
  split; [ rewrite Hassets; vm_compute; reflexivity | ].
  split; [ | exact Hlimit ].
  rewrite (Hinputs Sample.year2035 eq_refl).
  - apply Qeq_bool_iff. vm_compute. reflexivity.
  - constructor; [ | constructor ]. vm_compute. discriminate.
Defined.

Lemma asset_row_of_any_value (U R : Q) :
  exists props st row,
    In row (Estimator.assetValuations props st) /\
    Estimator.calculationExchangeRate st = R /\
    AssetValuation.valuationUSD row = U /\
    AssetValuation.valuationJPY row = U * R.
Proof.
  exists {| Estimator.simulationResult :=
              [ {| year := 2035; age := 60; total_assets := U;
                   pension_incomes := ∅;
                   asset_balances := Some {[ "Cash"%string := U ]};
                   asset_drawdowns := None |} ];
            Estimator.profile := Sample.profile;
            Estimator.pensions := [];
            Estimator.exchangeRate := R |}.
  exists {| Estimator.inheritanceYear := 2035;
            Estimator.interestRate := 0;
            Estimator.spouseLifeExpectancyAge := 87;
            Estimator.numberOfHeirs := 1;
            Estimator.calculationExchangeRate := R |}.
  exists (assetRow R ("Cash"%string, U)).
  split; [ | repeat split ].
  unfold Estimator.assetValuations. simpl.
  rewrite map_to_list_singleton. left. reflexivity.
Qed.

(** C7. The JPY figure of every row is one multiplication of its USD
    valuation by the exchange rate, with no rounding, fee or offset.  Every
    pension of the input list gets such a row for a found year (in both
    estimators), every asset balance of that year gets such a row, and every
    USD valuation [U] and rate [R] occur: some render has a row valued [U]
    in USD and [U * R] in JPY at rate [R]. *)
Theorem jpy_conversion_is_linear :
  (forall props st,
     Forall (fun row => PensionValuation.valuationJPY row
                        = PensionValuation.valuationUSD row
                          * Estimator.calculationExchangeRate st)
            (Estimator.pensionValuations props st) /\
     Forall (fun row => AssetValuation.valuationJPY row
                        = AssetValuation.valuationUSD row
                          * Estimator.calculationExchangeRate st)
            (Estimator.assetValuations props st)) /\
  (forall props st,
     Forall (fun row => PensionValuation.valuationJPY row
                        = PensionValuation.valuationUSD row
                          * PensionEstimator.exchangeRate props)
            (PensionEstimator.valuations props st)) /\
  (forall props st target (i : nat) pension,
     targetResult (Estimator.simulationResult props) (Estimator.inheritanceYear st)
       = Some target ->
     Estimator.pensions props !! i = Some pension ->
     exists row,
       Estimator.pensionValuations props st !! i = Some row /\
       PensionValuation.name row = Pension.name pension /\
       PensionValuation.valuationJPY row
       = PensionValuation.valuationUSD row * Estimator.calculationExchangeRate st) /\
  (forall props st target (i : nat) pension,
     targetResult (PensionEstimator.simulationResult props)
       (PensionEstimator.inheritanceYear st) = Some target ->
     PensionEstimator.pensions props !! i = Some pension ->
     exists row,
       PensionEstimator.valuations props st !! i = Some row /\
       PensionValuation.name row = Pension.name pension /\
       PensionValuation.valuationJPY row
       = PensionValuation.valuationUSD row * PensionEstimator.exchangeRate props) /\
  (forall props st target (balances : gmap string Q) name balance,
     targetResult (Estimator.simulationResult props) (Estimator.inheritanceYear st)
       = Some target ->
     asset_balances target = Some balances ->
     balances !! name = Some balance ->
     exists row,
       In row (Estimator.assetValuations props st) /\
       AssetValuation.name row = name /\
       AssetValuation.valuationUSD row = balance /\
       AssetValuation.valuationJPY row
       = AssetValuation.valuationUSD row * Estimator.calculationExchangeRate st) /\
  (forall U R,
     exists props st row,
       In row (Estimator.assetValuations props st) /\
       Estimator.calculationExchangeRate st = R /\
       AssetValuation.valuationUSD row = U /\
       AssetValuation.valuationJPY row = U * R).
Proof.
  split; [ | split; [ | split; [ | split; [ | split ] ] ] ].
  - intros props st. split.
    + apply Estimator_pension_linear.
    + apply Estimator_asset_linear.
  - apply PensionEstimator_linear.
  - intros props st target i pension Hfound Hpension.
    unfold Estimator.pensionValuations. rewrite Hfound.
    eexists. split; [ rewrite lookup_map, Hpension; reflexivity | ].
    split; reflexivity.
  - intros props st target i pension Hfound Hpension.
    unfold PensionEstimator.valuations. rewrite Hfound.
    eexists. split; [ rewrite lookup_map, Hpension; reflexivity | ].
    split; reflexivity.
  - intros props st target balances name balance Hfound Hbalances Hlook.
    exists (assetRow (Estimator.calculationExchangeRate st) (name, balance)).
    split; [ | repeat split ].
    unfold Estimator.assetValuations. rewrite Hfound, Hbalances.
    apply assetRow_of_entry. exact Hlook.
  - apply asset_row_of_any_value.
Qed.

Lemma jpy_conversion_is_linear_witness :
  (exists row,
     Estimator.pensionValuations Sample.props Sample.state !! 0%nat = Some row /\
     PensionValuation.name row = "SocialSecurity"%string /\
     PensionValuation.valuationJPY row = PensionValuation.valuationUSD row * 150) /\
  (exists row,
     In row (Estimator.assetValuations Sample.props Sample.state) /\
     AssetValuation.name row = "401k"%string /\
     AssetValuation.valuationUSD row = 500000 /\
     AssetValuation.valuationJPY row = AssetValuation.valuationUSD row * 150).
Proof.
  destruct jpy_conversion_is_linear as (_ & _ & Hpension & _ & Hasset & _).
  split.
  - apply (Hpension Sample.props Sample.state Sample.year2035 0%nat
             Sample.socialSecurity); reflexivity.
  - apply (Hasset Sample.props Sample.state Sample.year2035
             {[ "401k"%string := 500000 ]} "401k"%string 500000);
      [ reflexivity | reflexivity | ].
    vm_compute. reflexivity.
Defined.

(** ** The exchange rate is not validated *)

Lemma non_positive_product (u rate : Q) : 0 <= u -> rate <= 0 -> u * rate <= 0.
Proof. intros Hu Hrate. nra. Qed.

(** C8, as stated, asks for an InvalidInput failure when the rate is not
    positive; with the rate field set to -150 the estimator completes
    normally and prices the 401k balance of 500,000 USD at -75,000,000 JPY. *)
Lemma negative_rate_is_not_rejected :
  Estimator.calculationExchangeRate Sample.stateNegativeRate <= 0 /\
  Estimator.InheritanceCalculator Sample.props Sample.stateNegativeRate
    <> JS.Throw JS.InvalidInput /\
  List.map AssetValuation.valuationJPY
    (Estimator.assetValuations Sample.props Sample.stateNegativeRate)
  = [ -75000000 ].
Proof.
  split; [ discriminate | ]. split; [ discriminate | ]. vm_compute. reflexivity.
Qed.

(** C8 (amended). The estimator does not check the exchange rate: with a
    non-positive rate it still completes normally, every JPY figure it
    renders is the USD valuation times that rate, and an asset with a
    non-negative balance is therefore priced at a non-positive JPY amount. *)
Theorem non_positive_rate_is_used_as_given props st :
  Estimator.calculationExchangeRate st <= 0 ->
  exists view,
    Estimator.InheritanceCalculator props st = JS.Normal view /\
    Forall (fun row => PensionValuation.valuationJPY row
                       = PensionValuation.valuationUSD row
                         * Estimator.calculationExchangeRate st)
           (Estimator.pensionRows view) /\
    Forall (fun row => AssetValuation.valuationJPY row
                       = AssetValuation.valuationUSD row
                         * Estimator.calculationExchangeRate st)
           (Estimator.assetRows view) /\
    Forall (fun row => 0 <= AssetValuation.valuationUSD row ->
                       AssetValuation.valuationJPY row <= 0)
           (Estimator.assetRows view).
Proof.
  intros Hrate. eexists. split; [ reflexivity | ]. simpl. split; [ | split ].
  - apply Estimator_pension_linear.
  - apply Estimator_asset_linear.
  - apply (List.Forall_impl _ (P := fun row =>
              AssetValuation.valuationJPY row
              = AssetValuation.valuationUSD row * Estimator.calculationExchangeRate st));
      [ | apply Estimator_asset_linear ].
    intros row Hrow Husd. rewrite Hrow.
    apply (non_positive_product _ _ Husd Hrate).
Qed.

Lemma non_positive_rate_is_used_as_given_witness :
  Estimator.calculationExchangeRate Sample.stateNegativeRate <= 0 /\
  exists view,
    Estimator.InheritanceCalculator Sample.props Sample.stateNegativeRate
      = JS.Normal view /\
    Forall (fun row => PensionValuation.valuationJPY row
                       = PensionValuation.valuationUSD row * - 150)
           (Estimator.pensionRows view) /\
    Forall (fun row => AssetValuation.valuationJPY row
                       = AssetValuation.valuationUSD row * - 150)
           (Estimator.assetRows view) /\
    Forall (fun row => 0 <= AssetValuation.valuationUSD row ->
                       AssetValuation.valuationJPY row <= 0)
           (Estimator.assetRows view).
Proof.
  split; [ discriminate | ].
  apply (non_positive_rate_is_used_as_given Sample.props Sample.stateNegativeRate).
  discriminate.
Defined.

(** * Further properties of the estimators *)

(** ** Size of the present-value factor *)

Lemma annuity_step_nonzero (q : Q) (k : nat) :
  ~ q == 0 -> ~ 1 + q == 0 ->
  (1 - (1 + q) ^ (- Z.of_nat (S k))) / q
  == (1 - (1 + q) ^ (- Z.of_nat k)) / q + / (1 + q) ^ Z.of_nat (S k).
Proof.
  intros Hq Hg.
  assert (Hx : ~ (1 + q) ^ Z.of_nat k == 0) by (apply Qpower_not_0; exact Hg).
  rewrite !Qpower_opp, Nat2Z.inj_succ. unfold Z.succ.
  rewrite (Qpower_plus _ _ _ Hg), Qpower_1_r.
  field. repeat split; assumption.
Qed.

(** The annuity reading of the factor needs only [1 + r <> 0], so it also
    covers negative rates above -100%. *)
Lemma pvFactor_is_annuity_nonsingular (interestRate : Q) (k : nat) :
  ~ 1 + interestRate / 100 == 0 ->
  pvFactor interestRate (Z.of_nat k) == annuityPresentValue (interestRate / 100) k.
Proof.
  intros Hg. destruct (Qeq_dec (interestRate / 100) 0) as [Hz | Hnz].
  - rewrite (pvFactor_zero_rate _ _ Hz), (annuity_zero_rate _ _ Hz). reflexivity.
  - rewrite (pvFactor_nonzero_rate _ _ Hnz).
    induction k as [ | k IH ].
    + change (- Z.of_nat 0)%Z with 0%Z. rewrite Qpower_0_r.
      unfold Qminus. rewrite Qplus_opp_r. apply Qmult_0_l.
    + rewrite (annuity_step_nonzero _ _ Hnz Hg), IH. reflexivity.
Qed.

Lemma discount_factor_le_1 (q : Q) (j : Z) :
  0 <= q -> (0 <= j)%Z -> 0 < / (1 + q) ^ j /\ / (1 + q) ^ j <= 1.
Proof.
  intros Hq Hj.
  assert (Ha : 1 <= 1 + q) by lra.
  assert (Hp : 1 <= (1 + q) ^ j) by (apply Qpower_1_le; assumption).
  assert (Hpos : 0 < (1 + q) ^ j) by lra.
  split.
  - apply Qinv_lt_0_compat. exact Hpos.
  - apply Qle_shift_inv_r; [ exact Hpos | lra ].
Qed.

Lemma discount_factor_lt_1 (q : Q) (j : Z) :
  0 < q -> (0 < j)%Z -> / (1 + q) ^ j < 1.
Proof.
  intros Hq Hj.
  assert (Ha : 1 < 1 + q) by lra.
  assert (Hp : 1 < (1 + q) ^ j) by (apply Qpower_1_lt; assumption).
  apply Qlt_shift_inv_r; lra.
Qed.

Lemma discount_factor_gt_1 (q : Q) (j : Z) :
  - (1) < q -> q < 0 -> (0 < j)%Z -> 1 < / (1 + q) ^ j.
Proof.
  intros Hlo Hhi Hj.
  assert (Ha : 0 < 1 + q) by lra.
  assert (Hinv : 1 < / (1 + q)) by (apply Qlt_shift_inv_l; lra).
  rewrite <- Qinv_power. apply Qpower_1_lt; assumption.
Qed.

Lemma annuity_between_0_and_n (q : Q) (k : nat) :
  0 <= q ->
  0 <= annuityPresentValue q k /\ annuityPresentValue q k <= inject_Z (Z.of_nat k).
Proof.
  intros Hq. induction k as [ | k [IHlo IHhi] ].
  - split; apply Qle_refl.
  - change (annuityPresentValue q (S k))
      with (annuityPresentValue q k + / (1 + q) ^ Z.of_nat (S k)).
    destruct (discount_factor_le_1 q (Z.of_nat (S k)) Hq) as [Hlo Hhi]; [ lia | ].
    rewrite (Nat2Z.inj_succ k) at 3. unfold Z.succ. rewrite inject_Z_plus.
    change (inject_Z 1) with 1. split; lra.
Qed.

Lemma annuity_below_n (q : Q) (k : nat) :
  0 < q -> annuityPresentValue q (S k) < inject_Z (Z.of_nat (S k)).
Proof.
  intros Hq.
  change (annuityPresentValue q (S k))
    with (annuityPresentValue q k + / (1 + q) ^ Z.of_nat (S k)).
  destruct (annuity_between_0_and_n q k) as [_ Hhi]; [ lra | ].
  pose proof (discount_factor_lt_1 q (Z.of_nat (S k)) Hq) as Hterm.
  rewrite (Nat2Z.inj_succ k) at 2. unfold Z.succ. rewrite inject_Z_plus.
  change (inject_Z 1) with 1.
  assert (Hlt : / (1 + q) ^ Z.of_nat (S k) < 1) by (apply Hterm; lia).
  lra.
Qed.

Lemma annuity_above_n (q : Q) (k : nat) :
  - (1) < q -> q < 0 ->
  inject_Z (Z.of_nat k) <= annuityPresentValue q k /\
  inject_Z (Z.of_nat (S k)) < annuityPresentValue q (S k).
Proof.
  intros Hlo Hhi.
  assert (Hstep : forall j, inject_Z (Z.of_nat j) <= annuityPresentValue q j ->
                            inject_Z (Z.of_nat (S j)) < annuityPresentValue q (S j)).
  { intros j Hj.
    change (annuityPresentValue q (S j))
      with (annuityPresentValue q j + / (1 + q) ^ Z.of_nat (S j)).
    assert (Hterm : 1 < / (1 + q) ^ Z.of_nat (S j))
      by (apply discount_factor_gt_1; [ assumption | assumption | lia ]).
    rewrite (Nat2Z.inj_succ j) at 1. unfold Z.succ. rewrite inject_Z_plus.
    change (inject_Z 1) with 1. lra. }
  assert (Hall : inject_Z (Z.of_nat k) <= annuityPresentValue q k).
  { induction k as [ | k IH ]; [ apply Qle_refl | ].
    apply Qlt_le_weak, Hstep, IH. }
  split; [ exact Hall | apply Hstep, Hall ].
Qed.

Lemma annuity_monotone (q : Q) (k d : nat) :
  0 <= q -> annuityPresentValue q k <= annuityPresentValue q (k + d).
Proof.
  intros Hq. induction d as [ | d IH ].
  - rewrite Nat.add_0_r. apply Qle_refl.
  - rewrite Nat.add_succ_r.
    change (annuityPresentValue q (S (k + d)))
      with (annuityPresentValue q (k + d) + / (1 + q) ^ Z.of_nat (S (k + d))).
    destruct (discount_factor_le_1 q (Z.of_nat (S (k + d))) Hq) as [Hlo _]; [ lia | ].
    lra.
Qed.

Lemma rate_sign (interestRate : Q) :
  (0 <= interestRate -> 0 <= interestRate / 100) /\
  (0 < interestRate -> 0 < interestRate / 100) /\
  (interestRate < 0 -> interestRate / 100 < 0) /\
  (- (100) < interestRate -> - (1) < interestRate / 100).
Proof.
  assert (E : interestRate == interestRate / 100 * 100) by field.
  repeat split; intros H; rewrite E in H; lra.
Qed.

Lemma pvFactor_between_0_and_n (interestRate : Q) (n : Z) :
  0 <= interestRate -> (0 <= n)%Z ->
  0 <= pvFactor interestRate n /\ pvFactor interestRate n <= inject_Z n.
Proof.
  intros Hrate Hn.
  destruct (rate_sign interestRate) as (Hr0 & _).
  specialize (Hr0 Hrate).
  assert (Hann : pvFactor interestRate n
                 == annuityPresentValue (interestRate / 100) (Z.to_nat n)).
  { rewrite <- (Z2Nat.id n Hn) at 1. apply pvFactor_is_annuity_nonsingular.
    intros E. lra. }
  destruct (annuity_between_0_and_n (interestRate / 100) (Z.to_nat n) Hr0)
    as [Hlo Hhi].
  rewrite (Z2Nat.id n Hn) in Hhi.
  split; rewrite Hann; assumption.
Qed.

(** X1. At the rate 0 and at every rate of at least 0.1 %, the factor lies
    between 0 and the number of remaining years; at a rate of at least 0.1 %
    with at least one remaining year it is strictly below the number of
    years. *)
Theorem pvFactor_bounds (interestRate : Q) (n : Z) :
  wellConditionedRate interestRate -> (0 <= n)%Z ->
  0 <= pvFactor interestRate n /\
  pvFactor interestRate n <= inject_Z n /\
  (1 # 10 <= interestRate -> (0 < n)%Z -> pvFactor interestRate n < inject_Z n).
Proof.
  intros Hrate Hn. pose proof (wellConditioned_nonneg _ Hrate) as Hnn.
  destruct (pvFactor_between_0_and_n interestRate n Hnn Hn) as [Hlo Hhi].
  split; [ exact Hlo | ]. split; [ exact Hhi | ].
  intros Hpos Hn1.
  destruct (rate_sign interestRate) as (_ & Hr1 & _ & _).
  assert (Hgt : 0 < interestRate)
    by (apply Qlt_le_trans with (y := 1 # 10); [ reflexivity | exact Hpos ]).
  assert (Hann : pvFactor interestRate n
                 == annuityPresentValue (interestRate / 100) (Z.to_nat n)).
  { rewrite <- (Z2Nat.id n Hn) at 1. apply pvFactor_is_annuity_nonsingular.
    intros E. specialize (Hr1 Hgt). lra. }
  rewrite Hann.
  destruct (Z.to_nat n) as [ | k ] eqn:Ek; [ lia | ].
  rewrite <- (Z2Nat.id n Hn), Ek.
  apply annuity_below_n. exact (Hr1 Hgt).
Qed.

Lemma pvFactor_bounds_witness :
  0 <= pvFactor (25 # 10) 27 /\
  pvFactor (25 # 10) 27 <= inject_Z 27 /\
  pvFactor (25 # 10) 27 < inject_Z 27.
Proof.
  assert (Hpos : 1 # 10 <= 25 # 10) by (apply Qle_bool_iff; reflexivity).
  destruct (pvFactor_bounds (25 # 10) 27) as (Hlo & Hhi & Hstrict);
    [ right; exact Hpos | lia | ].
  split; [ exact Hlo | ]. split; [ exact Hhi | ].
  apply Hstrict; [ exact Hpos | lia ].
Defined.

(** X2. With a non-negative interest rate a longer remaining duration never
    lowers the factor. *)
Theorem pvFactor_monotone_in_duration (interestRate : Q) (n m : Z) :
  0 <= interestRate -> (0 <= n)%Z -> (n <= m)%Z ->
  pvFactor interestRate n <= pvFactor interestRate m.
Proof.
  intros Hrate Hn Hnm.
  destruct (rate_sign interestRate) as (Hr0 & _).
  specialize (Hr0 Hrate).
  assert (Hg : ~ 1 + interestRate / 100 == 0) by (intros E; lra).
  rewrite <- (Z2Nat.id n Hn), <- (Z2Nat.id m) by lia.
  rewrite !pvFactor_is_annuity_nonsingular by exact Hg.
  replace (Z.to_nat m) with (Z.to_nat n + (Z.to_nat m - Z.to_nat n))%nat by lia.
  apply annuity_monotone. exact Hr0.
Qed.

Lemma pvFactor_monotone_in_duration_witness :
  pvFactor 5 10 <= pvFactor 5 27.
Proof.
  apply (pvFactor_monotone_in_duration 5 10 27); [ discriminate | lia | lia ].
Defined.

(** X3. With an interest rate above -100 and of at most -0.1 (percent) and
    at least one remaining year, the Calculation Parameters panel shows the
    number of remaining years while the valuation uses a strictly larger
    factor: the two formulas disagree. *)
Theorem negative_rate_preview_understates (interestRate : Q) (n : Z) :
  - (100) < interestRate -> interestRate <= - (1 # 10) -> (0 < n)%Z ->
  pvFactorPreview interestRate n = inject_Z n /\
  inject_Z n < pvFactor interestRate n.
Proof.
  intros Hlo Hhi Hn.
  assert (Hneg0 : interestRate < 0)
    by (apply Qle_lt_trans with (y := - (1 # 10)); [ exact Hhi | reflexivity ]).
  destruct (rate_sign interestRate) as (_ & _ & Hneg & Hbig).
  specialize (Hneg Hneg0). specialize (Hbig Hlo).
  split.
  - unfold pvFactorPreview, JS.gt.
    assert (L : Qle_bool interestRate 0 = true)
      by (apply Qle_bool_iff, Qlt_le_weak; exact Hneg0).
    rewrite L. reflexivity.
  - assert (Hg : ~ 1 + interestRate / 100 == 0) by (intros E; lra).
    destruct (Z.to_nat n) as [ | k ] eqn:Ek; [ lia | ].
    rewrite <- (Z2Nat.id n) by lia. rewrite Ek.
    rewrite pvFactor_is_annuity_nonsingular by exact Hg.
    apply (annuity_above_n _ k Hbig Hneg).
Qed.

Lemma negative_rate_preview_understates_witness :
  pvFactorPreview (- (2)) 10 = inject_Z 10 /\ inject_Z 10 < pvFactor (- (2)) 10.
Proof.
  apply (negative_rate_preview_understates (- (2)) 10);
    [ reflexivity | apply Qle_bool_iff; reflexivity | lia ].
Defined.

(** ** Sums over the tables *)

(** X4. In every render the JPY subtotal of each table is its USD subtotal
    times the exchange rate, and the grand total in JPY is the sum of the two
    USD subtotals times the rate; the pension-only estimator's JPY total is
    its USD total times the simulation rate. *)
Theorem subtotals_convert_linearly :
  (forall props st,
     exists view,
       Estimator.InheritanceCalculator props st = JS.Normal view /\
       Estimator.pensionSubtotalJPY view
         == Estimator.pensionSubtotalUSD view * Estimator.calculationExchangeRate st /\
       Estimator.assetSubtotalJPY view
         == Estimator.assetSubtotalUSD view * Estimator.calculationExchangeRate st /\
       Estimator.grandTotalJPY view
         == (Estimator.pensionSubtotalUSD view + Estimator.assetSubtotalUSD view)
            * Estimator.calculationExchangeRate st) /\
  (forall props st,
     exists view,
       PensionEstimator.InheritanceCalculator props st = JS.Normal view /\
       PensionEstimator.totalJPY view
         == PensionEstimator.totalUSD view * PensionEstimator.exchangeRate props).
Proof.
  split; intros props st; eexists; (split; [ reflexivity | ]); simpl.
  - assert (Hp := reduce_sum_scaled _ _ _ _ (Estimator_pension_linear props st)).
    assert (Ha := reduce_sum_scaled _ _ _ _ (Estimator_asset_linear props st)).
    unfold Estimator.totalValuationJPY, Estimator.totalPensionValuationJPY,
      Estimator.totalAssetValuationJPY.
    split; [ exact Hp | ]. split; [ exact Ha | ].
    rewrite Hp, Ha. ring.
  - apply (reduce_sum_scaled _ _ _ _ (PensionEstimator_linear props st)).
Qed.

Lemma pensionRows_usd (target : SimulationResult) (factor rate : Q) (ps : list Pension.t) :
  List.Forall (fun row => PensionValuation.valuationUSD row
                          = PensionValuation.annualAmountUSD row * factor)
              (List.map (pensionRow target factor rate) ps).
Proof.
  induction ps as [ | p ps IH ]; simpl; constructor; [ reflexivity | exact IH ].
Qed.

Lemma Estimator_pension_usd props st :
  List.Forall
    (fun row => PensionValuation.valuationUSD row
                = PensionValuation.annualAmountUSD row
                  * pvFactor (Estimator.interestRate st)
                      (Estimator.remainingYears props st))
    (Estimator.pensionValuations props st).
Proof.
  unfold Estimator.pensionValuations.
  destruct (targetResult _ _); [ apply pensionRows_usd | constructor ].
Qed.

(** X5. For the found year, when no pension's income read ends on the
    prototype, the pension subtotal in USD is the PV factor times the sum,
    over the pensions of the input list, of the income stored under each
    pension's name for that year (0 for a name that is not stored). *)
Theorem pension_subtotal_is_factor_times_income props st target :
  targetResult (Estimator.simulationResult props) (Estimator.inheritanceYear st)
    = Some target ->
  List.Forall (readsNumber target) (Estimator.pensions props) ->
  JS.reduce_sum PensionValuation.valuationUSD (Estimator.pensionValuations props st)
  == pvFactor (Estimator.interestRate st) (Estimator.remainingYears props st)
     * Qsum (List.map (fun p => default 0 (pension_incomes target !! Pension.name p))
               (Estimator.pensions props)).
Proof.
  intros Hfound _. rewrite reduce_sum_Qsum.
  unfold Estimator.pensionValuations. rewrite Hfound.
  rewrite List.map_map, Qmult_comm, <- Qsum_scaled.
  apply Qsum_pointwise. intros p _. simpl.
  rewrite or_num_default. reflexivity.
Qed.

Lemma pension_subtotal_is_factor_times_income_witness :
  JS.reduce_sum PensionValuation.valuationUSD
    (Estimator.pensionValuations Sample.props Sample.state)
  == pvFactor (25 # 10) 27
     * Qsum (List.map
               (fun p => default 0 (pension_incomes Sample.year2035 !! Pension.name p))
               [Sample.socialSecurity]).
Proof.
  apply (pension_subtotal_is_factor_times_income Sample.props Sample.state
           Sample.year2035).
  - reflexivity.
  - constructor; [ | constructor ]. vm_compute. discriminate.
Defined.

Lemma pvFactor_zero_duration (interestRate : Q) : pvFactor interestRate 0 == 0.
Proof.
  unfold pvFactor, JS.pow. destruct (Qeq_bool (interestRate / 100) 0).
  - reflexivity.
  - change (- 0)%Z with 0%Z. rewrite Qpower_0_r.
    unfold Qminus, Qdiv. rewrite Qplus_opp_r. apply Qmult_0_l.
Qed.

(** X6. For a found year and pensions whose income read is numeric: when
    the spouse's age at inheritance has reached the life-expectancy age, at
    any interest rate and exchange rate that are numbers, the pension table
    still has one row per pension, every row is valued at zero in USD and in
    JPY, the pension subtotal is zero and the grand total is the asset
    subtotal alone. *)
Theorem expired_annuity_values_nothing props st target :
  targetResult (Estimator.simulationResult props) (Estimator.inheritanceYear st)
    = Some target ->
  List.Forall (readsNumber target) (Estimator.pensions props) ->
  (Estimator.spouseLifeExpectancyAge st <= Estimator.spouseAge props st)%Z ->
  length (Estimator.pensionValuations props st) = length (Estimator.pensions props) /\
  List.Forall (fun row => PensionValuation.valuationUSD row == 0 /\
                          PensionValuation.valuationJPY row == 0)
              (Estimator.pensionValuations props st) /\
  Estimator.totalPensionValuationJPY props st == 0 /\
  Estimator.totalValuationJPY props st == Estimator.totalAssetValuationJPY props st.
Proof.
  intros Hfound _ Hage.
  assert (Hn : Estimator.remainingYears props st = 0%Z)
    by (unfold Estimator.remainingYears; lia).
  assert (Hrows : List.Forall
            (fun row => PensionValuation.valuationUSD row == 0 /\
                        PensionValuation.valuationJPY row == 0)
            (Estimator.pensionValuations props st)).
  { apply List.Forall_forall. intros row Hin.
    pose proof (proj1 (List.Forall_forall _ _) (Estimator_pension_usd props st) row Hin)
      as Husd.
    pose proof (proj1 (List.Forall_forall _ _) (Estimator_pension_linear props st) row Hin)
      as Hjpy.
    simpl in Husd, Hjpy. rewrite Hn in Husd.
    assert (Hzero : PensionValuation.valuationUSD row == 0).
    { rewrite Husd, pvFactor_zero_duration. apply Qmult_0_r. }
    split; [ exact Hzero | ]. rewrite Hjpy, Hzero. apply Qmult_0_l. }
  assert (Htotal : Estimator.totalPensionValuationJPY props st == 0).
  { apply reduce_sum_zero. eapply List.Forall_impl; [ | exact Hrows ].
    intros row [_ H]. exact H. }
  split.
  { unfold Estimator.pensionValuations. rewrite Hfound. apply length_map. }
  split; [ exact Hrows | ]. split; [ exact Htotal | ].
  unfold Estimator.totalValuationJPY. rewrite Htotal. apply Qplus_0_l.
Qed.

Lemma expired_annuity_values_nothing_witness :
  Estimator.remainingYears Sample.props sampleStateExpired = 0%Z /\
  length (Estimator.pensionValuations Sample.props sampleStateExpired) = 1%nat /\
  Estimator.totalPensionValuationJPY Sample.props sampleStateExpired == 0.
Proof.
  split; [ reflexivity | ].
  destruct (expired_annuity_values_nothing Sample.props sampleStateExpired
              Sample.year2035) as (Hlen & _ & Htotal & _).
  - reflexivity.
  - constructor; [ | constructor ]. vm_compute. discriminate.
  - vm_compute. discriminate.
  - split; [ exact Hlen | exact Htotal ].
Defined.

(** X7. A found year that carries no [asset_balances] object gives an empty
    asset table while the pension table keeps one row per pension, and the
    grand total is then the pension subtotal. *)
Theorem missing_asset_balances_gives_empty_table props st target :
  targetResult (Estimator.simulationResult props) (Estimator.inheritanceYear st)
    = Some target ->
  asset_balances target = None ->
  Estimator.assetValuations props st = [] /\
  length (Estimator.pensionValuations props st) = length (Estimator.pensions props) /\
  Estimator.totalValuationJPY props st == Estimator.totalPensionValuationJPY props st.
Proof.
  intros Hfound Hnone.
  assert (Hempty : Estimator.assetValuations props st = []).
  { unfold Estimator.assetValuations. rewrite Hfound, Hnone. reflexivity. }
  split; [ exact Hempty | ]. split.
  - unfold Estimator.pensionValuations. rewrite Hfound. apply length_map.
  - unfold Estimator.totalValuationJPY, Estimator.totalAssetValuationJPY.
    rewrite Hempty. apply Qplus_0_r.
Qed.

Lemma missing_asset_balances_gives_empty_table_witness :
  Estimator.assetValuations samplePropsWithoutAssets Sample.state = [] /\
  length (Estimator.pensionValuations samplePropsWithoutAssets Sample.state) = 1%nat.
Proof.
  destruct (missing_asset_balances_gives_empty_table samplePropsWithoutAssets
              Sample.state sampleYearWithoutAssets eq_refl eq_refl) as (H1 & H2 & _).
  split; [ exact H1 | exact H2 ].
Defined.

(** X8. When several results of the series carry the requested year, the
    estimators use the first of them; the result they use is always an
    element of the series with that year. *)
Theorem targetResult_is_first_match
    (before after : list SimulationResult) (r : SimulationResult) (y : Z) :
  (forall r', In r' before -> year r' <> y) ->
  year r = y ->
  targetResult (before ++ r :: after) y = Some r /\
  (forall series found,
     targetResult series y = Some found -> In found series /\ year found = y).
Proof.
  intros Hbefore Hyear. split.
  - unfold targetResult. induction before as [ | b before IH ]; simpl.
    + rewrite (proj2 (Z.eqb_eq _ _) Hyear). reflexivity.
    + destruct (Z.eqb_spec (year b) y) as [E | _].
      * exfalso. apply (Hbefore b); [ left; reflexivity | exact E ].
      * apply IH. intros r' Hin. apply Hbefore. right. exact Hin.
  - intros series found. apply targetResult_found.
Qed.

Lemma targetResult_is_first_match_witness :
  targetResult ([] ++ Sample.year2035 :: [sampleYearWithoutAssets]) 2035
  = Some Sample.year2035.
Proof.
  apply (targetResult_is_first_match [] [sampleYearWithoutAssets] Sample.year2035 2035).
  - intros r' [].
  - reflexivity.
Defined.

(** X9. As long as the editable exchange rate equals the simulation rate,
    which is how the estimator with assets starts, its pension table, its
    remaining-years label and its PV-factor preview are those of the
    pension-only estimator on the same inputs. *)
Theorem estimators_agree_on_pensions props st :
  Estimator.calculationExchangeRate st = Estimator.exchangeRate props ->
  Estimator.pensionValuations props st
    = PensionEstimator.valuations (asPensionEstimatorProps props)
        (asPensionEstimatorState st) /\
  (exists view old,
     Estimator.InheritanceCalculator props st = JS.Normal view /\
     PensionEstimator.InheritanceCalculator (asPensionEstimatorProps props)
       (asPensionEstimatorState st) = JS.Normal old /\
     Estimator.pensionRows view = PensionEstimator.rows old /\
     Estimator.pensionSubtotalUSD view = PensionEstimator.totalUSD old /\
     Estimator.pensionSubtotalJPY view = PensionEstimator.totalJPY old /\
     Estimator.shownRemainingYears view = PensionEstimator.shownRemainingYears old /\
     Estimator.shownPvFactor view = PensionEstimator.shownPvFactor old).
Proof.
  intros Hrate.
  assert (Hrows : Estimator.pensionValuations props st
                  = PensionEstimator.valuations (asPensionEstimatorProps props)
                      (asPensionEstimatorState st)).
  { unfold Estimator.pensionValuations, PensionEstimator.valuations. simpl.
    rewrite Hrate. reflexivity. }
  split; [ exact Hrows | ].
  eexists. eexists. split; [ reflexivity | ]. split; [ reflexivity | ]. simpl.
  unfold Estimator.totalPensionValuationJPY. rewrite Hrows.
  repeat split.
Qed.

Lemma estimators_agree_on_pensions_witness :
  Estimator.pensionValuations Sample.props (Estimator.initialState 2025 Sample.props)
  = PensionEstimator.valuations (asPensionEstimatorProps Sample.props)
      (asPensionEstimatorState (Estimator.initialState 2025 Sample.props)).
Proof.
  apply (estimators_agree_on_pensions Sample.props
           (Estimator.initialState 2025 Sample.props)).
  reflexivity.
Defined.

(** X10. Two pensions entered under the same name are looked up under the
    same key: their rows carry the same annual amount and the same
    valuations, whatever else distinguishes the two pensions. *)
Theorem same_name_pensions_get_same_row props st (i j : nat) (p q : Pension.t) :
  Estimator.pensions props !! i = Some p ->
  Estimator.pensions props !! j = Some q ->
  Pension.name p = Pension.name q ->
  Estimator.pensionValuations props st !! i
  = Estimator.pensionValuations props st !! j.
Proof.
  intros Hp Hq Hname. unfold Estimator.pensionValuations.
  destruct (targetResult _ _) as [ target | ].
  - rewrite !lookup_map, Hp, Hq. simpl. unfold pensionRow.
    rewrite Hname. reflexivity.
  - rewrite !lookup_nil. reflexivity.
Qed.

Lemma same_name_pensions_get_same_row_witness :
  Estimator.pensionValuations samplePropsHomonyms Sample.state !! 0%nat
  = Estimator.pensionValuations samplePropsHomonyms Sample.state !! 1%nat.
Proof.
  apply (same_name_pensions_get_same_row samplePropsHomonyms Sample.state
           0 1 Sample.socialSecurity sampleHomonym); reflexivity.
Defined.

(** X11. For a found year, at the rate 0 or a rate of at least 0.1 %, the
    row of a pension whose income read is numeric and not negative is valued
    in USD between zero and the annual amount times the remaining years, and
    with a non-negative exchange rate its JPY valuation is not negative
    either. *)
Theorem pension_valuation_is_capped props st target (i : nat)
    (pension : Pension.t) (row : PensionValuation.t) :
  targetResult (Estimator.simulationResult props) (Estimator.inheritanceYear st)
    = Some target ->
  Estimator.pensions props !! i = Some pension ->
  readsNumber target pension ->
  Estimator.pensionValuations props st !! i = Some row ->
  wellConditionedRate (Estimator.interestRate st) ->
  0 <= PensionValuation.annualAmountUSD row ->
  annualAmountRead target pension = Number (PensionValuation.annualAmountUSD row) /\
  0 <= PensionValuation.valuationUSD row /\
  PensionValuation.valuationUSD row
    <= PensionValuation.annualAmountUSD row
       * inject_Z (Estimator.remainingYears props st) /\
  (0 <= Estimator.calculationExchangeRate st ->
   0 <= PensionValuation.valuationJPY row).
Proof.
  intros Hfound Hpension Hread Hrow Hrate Hamount.
  assert (Hin : In row (Estimator.pensionValuations props st)).
  { apply list_elem_of_In. eapply list_elem_of_lookup_2. exact Hrow. }
  assert (Hsame : annualAmountRead target pension
                  = Number (PensionValuation.annualAmountUSD row)).
  { unfold Estimator.pensionValuations in Hrow. rewrite Hfound in Hrow.
    rewrite lookup_map, Hpension in Hrow. injection Hrow as <-.
    apply annualAmountRead_is_row_amount. exact Hread. }
  pose proof (proj1 (List.Forall_forall _ _) (Estimator_pension_usd props st) row Hin)
    as Husd.
  pose proof (proj1 (List.Forall_forall _ _) (Estimator_pension_linear props st) row Hin)
    as Hjpy.
  simpl in Husd, Hjpy.
  destruct (pvFactor_between_0_and_n (Estimator.interestRate st)
              (Estimator.remainingYears props st)
              (wellConditioned_nonneg _ Hrate)) as (Hlo & Hhi).
  { unfold Estimator.remainingYears. lia. }
  assert (Hnonneg : 0 <= PensionValuation.valuationUSD row).
  { rewrite Husd. apply Qmult_le_0_compat; assumption. }
  split; [ exact Hsame | ]. split; [ exact Hnonneg | ]. split.
  - rewrite Husd.
    set (a := PensionValuation.annualAmountUSD row) in *.
    set (f := pvFactor _ _) in *.
    set (n := inject_Z _) in *.
    clearbody a f n. nra.
  - intros Hfx. rewrite Hjpy. apply Qmult_le_0_compat; assumption.
Qed.

Lemma pension_valuation_is_capped_witness :
  0 <= PensionValuation.valuationUSD
         (pensionRow Sample.year2035 (pvFactor (25 # 10) 27) 150 Sample.socialSecurity)
  /\ PensionValuation.valuationUSD
       (pensionRow Sample.year2035 (pvFactor (25 # 10) 27) 150 Sample.socialSecurity)
     <= 24000 * inject_Z 27.
Proof.
  destruct (pension_valuation_is_capped Sample.props Sample.state Sample.year2035
              0%nat Sample.socialSecurity
              (pensionRow Sample.year2035 (pvFactor (25 # 10) 27) 150
                 Sample.socialSecurity)) as (_ & Hlo & Hhi & _).
  - reflexivity.
  - reflexivity.
  - vm_compute. discriminate.
  - reflexivity.
  - right. apply Qle_bool_iff. reflexivity.
  - vm_compute. discriminate.
  - split; [ exact Hlo | exact Hhi ].
Defined.

(** ** What the panel prints *)

Lemma toFixed3_error (x : Q) :
  Qabs (inject_Z (JS.toFixed3 x) / 1000 - x) <= 1 # 2000.
Proof.
  unfold JS.toFixed3.
  pose proof (Qfloor_le (Qabs x * 1000 + (1 # 2))) as Hlo.
  pose proof (Qlt_floor (Qabs x * 1000 + (1 # 2))) as Hhi.
  rewrite inject_Z_plus in Hhi. change (inject_Z 1) with 1 in Hhi.
  set (n := inject_Z (Qfloor (Qabs x * 1000 + (1 # 2)))) in *.
  apply Qabs_Qle_condition.
  destruct (Qle_bool 0 x) eqn:E.
  - apply Qle_bool_iff in E. rewrite (Qabs_pos x E) in Hlo, Hhi.
    fold n. clearbody n.
    assert (D : n / 1000 - x == (n - x * 1000) / 1000) by field.
    rewrite D. split.
    + apply Qle_shift_div_l; [ reflexivity | lra ].
    + apply Qle_shift_div_r; [ reflexivity | lra ].
  - assert (Hneg : x <= 0).
    { destruct (Qlt_le_dec x 0) as [L | L]; [ apply Qlt_le_weak; exact L | ].
      apply Qle_bool_iff in L. rewrite L in E. discriminate E. }
    rewrite (Qabs_neg x Hneg) in Hlo, Hhi.
    rewrite inject_Z_opp. fold n. clearbody n.
    assert (D : - n / 1000 - x == (- n - x * 1000) / 1000) by field.
    rewrite D. split.
    + apply Qle_shift_div_l; [ reflexivity | lra ].
    + apply Qle_shift_div_r; [ reflexivity | lra ].
Qed.

(** X12. At the rate 0 or a rate of at least 0.1 %, the PV factor printed
    in the Calculation Parameters panel (three decimals) differs from the
    factor that priced the pension rows by at most 0.0005. *)
Theorem shown_pvFactor_is_accurate props st view :
  wellConditionedRate (Estimator.interestRate st) ->
  Estimator.InheritanceCalculator props st = JS.Normal view ->
  Qabs (inject_Z (Estimator.shownPvFactor view) / 1000
        - pvFactor (Estimator.interestRate st)
            (remainingLifeExpectancy (Estimator.profile props)
               (Estimator.inheritanceYear st) (Estimator.spouseLifeExpectancyAge st)))
  <= 1 # 2000.
Proof.
  intros Hrate Hview.
  rewrite (Estimator_shown_pvFactor _ _ _ Hrate Hview).
  apply toFixed3_error.
Qed.

Lemma shown_pvFactor_is_accurate_witness :
  exists view,
    Estimator.InheritanceCalculator Sample.props Sample.state = JS.Normal view /\
    Estimator.shownPvFactor view = 19464%Z /\
    remainingLifeExpectancy (Estimator.profile Sample.props)
      (Estimator.inheritanceYear Sample.state)
      (Estimator.spouseLifeExpectancyAge Sample.state) = 27%Z /\
    Qabs (inject_Z (Estimator.shownPvFactor view) / 1000
          - pvFactor (Estimator.interestRate Sample.state)
              (remainingLifeExpectancy (Estimator.profile Sample.props)
                 (Estimator.inheritanceYear Sample.state)
                 (Estimator.spouseLifeExpectancyAge Sample.state)))
    <= 1 # 2000.
Proof.
  eexists. split; [ reflexivity | ].
  split; [ vm_compute; reflexivity | ]. split; [ reflexivity | ].
  apply (shown_pvFactor_is_accurate Sample.props Sample.state);
    [ right; apply Qle_bool_iff; reflexivity | reflexivity ].
Defined.

(** X24. At the rate 0 and at every rate of at least 0.1 %, for every
    duration, the factor computed for the Calculation Parameters panel
    (guarded by [interestRate > 0]) is the factor computed inside the pension
    valuation (guarded by [r === 0]). *)
Theorem preview_matches_valuation_on_usual_rates (interestRate : Q) (n : Z) :
  wellConditionedRate interestRate ->
  pvFactorPreview interestRate n = pvFactor interestRate n.
Proof. intros Hrate. same_branch Hrate. Qed.

Lemma preview_matches_valuation_on_usual_rates_witness :
  pvFactorPreview (25 # 10) 27 = pvFactor (25 # 10) 27.
Proof.
  apply (preview_matches_valuation_on_usual_rates (25 # 10) 27).
  right. apply Qle_bool_iff. reflexivity.
Defined.

(** ** The heirs field *)

(** X13. Whatever is typed into the heirs field, the stored number of heirs
    is never 0: an empty or non-numeric entry and the entry 0 all store 1,
    any other integer is stored as typed (a negative one included), so the
    exemption limit is never 0 and it is 5,000,000 JPY after an empty entry.
    The other four settings are left as they were. *)
Theorem heirs_field_never_stores_zero (parsed : option Z) (st : Estimator.State) :
  Estimator.numberOfHeirs (onNumberOfHeirsChange parsed st) <> 0%Z /\
  Estimator.exemptionLimit (onNumberOfHeirsChange parsed st) <> 0%Z /\
  (parsed = None \/ parsed = Some 0%Z ->
   Estimator.numberOfHeirs (onNumberOfHeirsChange parsed st) = 1%Z /\
   Estimator.exemptionLimit (onNumberOfHeirsChange parsed st) = 5000000%Z) /\
  (forall k, parsed = Some k -> k <> 0%Z ->
             Estimator.numberOfHeirs (onNumberOfHeirsChange parsed st) = k) /\
  Estimator.inheritanceYear (onNumberOfHeirsChange parsed st)
    = Estimator.inheritanceYear st /\
  Estimator.interestRate (onNumberOfHeirsChange parsed st)
    = Estimator.interestRate st /\
  Estimator.spouseLifeExpectancyAge (onNumberOfHeirsChange parsed st)
    = Estimator.spouseLifeExpectancyAge st /\
  Estimator.calculationExchangeRate (onNumberOfHeirsChange parsed st)
    = Estimator.calculationExchangeRate st.
Proof.
  simpl.
  assert (Hnz : JS.or_int parsed 1 <> 0%Z).
  { destruct parsed as [ k | ]; simpl; [ | discriminate ].
    destruct (Z.eqb_spec k 0); [ discriminate | assumption ]. }
  split; [ exact Hnz | ].
  split; [ unfold Estimator.exemptionLimit; simpl; lia | ].
  split; [ intros [-> | ->]; split; reflexivity | ].
  split; [ intros k -> Hk; apply or_int_present; exact Hk | ].
  repeat split.
Qed.

Lemma heirs_field_never_stores_zero_witness :
  Estimator.numberOfHeirs (onNumberOfHeirsChange (Some (- 3)%Z) Sample.state)
  = (- 3)%Z.
Proof.
  destruct (heirs_field_never_stores_zero (Some (- 3)%Z) Sample.state)
    as (_ & _ & _ & Hkept & _).
  apply Hkept; [ reflexivity | discriminate ].
Defined.

(** * Properties of the dashboard *)

Lemma delete_removedAt {A : Type} (index : nat) (l : list A) :
  removedAt index l (delete index l).
Proof.
  unfold removedAt. split; [ | split; [ | split ] ].
  - intros Hlt. apply length_delete. apply lookup_lt_is_Some. exact Hlt.
  - intros j Hj. apply list_lookup_delete_lt. exact Hj.
  - intros j Hj. apply list_lookup_delete_ge. exact Hj.
  - revert index. induction l as [ | x l IH ]; intros [ | i ] Hge; simpl in *;
      try reflexivity; [ lia | ].
    f_equal. apply IH. lia.
Qed.

Section DashboardProperties.

Context {asset pension lifeEvent : Type}.
Local Abbreviation State := (Dashboard.State asset pension lifeEvent).
Local Abbreviation Edit := (Dashboard.Edit asset pension lifeEvent).

(** X14. Adding an entry and then pressing the remove button of the row it
    got (the last one) gives back the state from before, for assets,
    pensions and life events alike. *)
Theorem add_then_remove_restores (st : State) :
  (forall a, Dashboard.removeAsset (length (Dashboard.assets st))
               (Dashboard.handleAddAsset a st) = st) /\
  (forall p, Dashboard.removePension (length (Dashboard.pensions st))
               (Dashboard.handleAddPension p st) = st) /\
  (forall e, Dashboard.removeLifeEvent (length (Dashboard.lifeEvents st))
               (Dashboard.handleAddLifeEvent e st) = st).
Proof.
  destruct st as [ assets pensions events profile result ].
  unfold Dashboard.removeAsset, Dashboard.removePension, Dashboard.removeLifeEvent.
  simpl. split; [ | split ]; intros x;
    rewrite delete_middle, app_nil_r; reflexivity.
Qed.

(** X15. A remove button takes out exactly the entry of its row: the list
    gets one shorter, the entries above keep their place, the entries below
    move up by one, and an index past the end changes nothing; the other two
    lists, the profile and the simulation result are untouched. *)
Theorem remove_takes_out_one_entry (st : State) (index : nat) :
  removedAt index (Dashboard.assets st)
    (Dashboard.assets (Dashboard.removeAsset index st)) /\
  removedAt index (Dashboard.pensions st)
    (Dashboard.pensions (Dashboard.removePension index st)) /\
  removedAt index (Dashboard.lifeEvents st)
    (Dashboard.lifeEvents (Dashboard.removeLifeEvent index st)) /\
  Dashboard.pensions (Dashboard.removeAsset index st) = Dashboard.pensions st /\
  Dashboard.lifeEvents (Dashboard.removeAsset index st) = Dashboard.lifeEvents st /\
  Dashboard.assets (Dashboard.removePension index st) = Dashboard.assets st /\
  Dashboard.lifeEvents (Dashboard.removePension index st) = Dashboard.lifeEvents st /\
  Dashboard.assets (Dashboard.removeLifeEvent index st) = Dashboard.assets st /\
  Dashboard.pensions (Dashboard.removeLifeEvent index st) = Dashboard.pensions st.
Proof.
  split; [ apply delete_removedAt | ].
  split; [ apply delete_removedAt | ].
  split; [ apply delete_removedAt | ].
  repeat split.
Qed.

(** The profile facts that every edit preserves. *)
Lemma profile_invariant_step (st : State) (e : Edit) :
  let ok (s : State) :=
    (exists y, Dashboard.spouse_birth_year (Dashboard.profile s) = Some y /\ y <> 0%Z) /\
    Dashboard.birth_year (Dashboard.profile s) <> 0%Z /\
    Dashboard.retirement_age (Dashboard.profile s) <> 0%Z /\
    Dashboard.life_expectancy (Dashboard.profile s) = 95%Z /\
    Dashboard.current_location (Dashboard.profile s) = Dashboard.US in
  ok st -> ok (Dashboard.apply st e).
Proof.
  assert (Hor : forall parsed d, d <> 0%Z -> JS.or_int parsed d <> 0%Z).
  { intros [ k | ] d Hd; simpl; [ | exact Hd ].
    destruct (Z.eqb_spec k 0); assumption. }
  intros ok (Hs & Hb & Hr & Hl & Hc).
  destruct e as [ a | p | ev | i | i | i | parsed | parsed | parsed | [ r | ] ];
    unfold ok; simpl; try (repeat split; assumption).
  - split; [ exact Hs | ]. split; [ apply Hor; discriminate | ].
    repeat split; assumption.
  - split; [ eexists; split; [ reflexivity | apply Hor; discriminate ] | ].
    repeat split; assumption.
  - split; [ exact Hs | ]. split; [ exact Hb | ].
    split; [ apply Hor; discriminate | ]. split; assumption.
Qed.

(** X16. Starting from the initial dashboard, no sequence of additions,
    removals, profile edits and simulation runs can leave the spouse birth
    year missing or 0, nor make the birth year or the retirement age 0; and
    since no control edits them, the life expectancy stays 95 and the
    location stays US. *)
Theorem profile_stays_well_formed (edits : list Edit) :
  (exists y,
     Dashboard.spouse_birth_year
       (Dashboard.profile
          (Dashboard.applyAll (Dashboard.initialState asset pension lifeEvent) edits))
     = Some y /\ y <> 0%Z) /\
  Dashboard.birth_year
    (Dashboard.profile
       (Dashboard.applyAll (Dashboard.initialState asset pension lifeEvent) edits))
    <> 0%Z /\
  Dashboard.retirement_age
    (Dashboard.profile
       (Dashboard.applyAll (Dashboard.initialState asset pension lifeEvent) edits))
    <> 0%Z /\
  Dashboard.life_expectancy
    (Dashboard.profile
       (Dashboard.applyAll (Dashboard.initialState asset pension lifeEvent) edits))
    = 95%Z /\
  Dashboard.current_location
    (Dashboard.profile
       (Dashboard.applyAll (Dashboard.initialState asset pension lifeEvent) edits))
    = Dashboard.US.
Proof.
  unfold Dashboard.applyAll.
  assert (Hinit :
    (exists y, Dashboard.spouse_birth_year
                 (Dashboard.profile (Dashboard.initialState asset pension lifeEvent))
               = Some y /\ y <> 0%Z) /\
    Dashboard.birth_year
      (Dashboard.profile (Dashboard.initialState asset pension lifeEvent)) <> 0%Z /\
    Dashboard.retirement_age
      (Dashboard.profile (Dashboard.initialState asset pension lifeEvent)) <> 0%Z /\
    Dashboard.life_expectancy
      (Dashboard.profile (Dashboard.initialState asset pension lifeEvent)) = 95%Z /\
    Dashboard.current_location
      (Dashboard.profile (Dashboard.initialState asset pension lifeEvent))
    = Dashboard.US).
  { simpl. split; [ exists 1975%Z; split; [ reflexivity | discriminate ] | ].
    repeat split; discriminate. }
  revert Hinit. generalize (Dashboard.initialState asset pension lifeEvent).
  induction edits as [ | e edits IH ]; intros st Hst; simpl.
  - exact Hst.
  - apply IH. apply (profile_invariant_step st e). exact Hst.
Qed.

End DashboardProperties.

Section DashboardPersistence.

Context {asset pension lifeEvent : Type}.
Local Abbreviation State := (Dashboard.State asset pension lifeEvent).
Local Abbreviation Edit := (Dashboard.Edit asset pension lifeEvent).
Local Abbreviation LoadResponse := (Dashboard.LoadResponse asset pension lifeEvent).

(** X17. Save and Run Simulation send the same request body.  If the server
    answers a later load with the saved body unchanged, loading restores the
    saved assets, pensions, life events and profile whatever was edited in
    between, reports success, and keeps the simulation result that was on
    screen; loading right after saving changes nothing. *)
Theorem load_restores_what_was_saved (saved current : State) :
  Dashboard.saveInput saved = Dashboard.simulationInput saved /\
  (exists restored,
     Dashboard.onLoadResponse
       (Some (Dashboard.loadResponseOf (Dashboard.saveInput saved))) current
     = (restored, Dashboard.DataLoaded) /\
     Dashboard.assets restored = Dashboard.assets saved /\
     Dashboard.pensions restored = Dashboard.pensions saved /\
     Dashboard.lifeEvents restored = Dashboard.lifeEvents saved /\
     Dashboard.profile restored = Dashboard.profile saved /\
     Dashboard.simulationResult restored = Dashboard.simulationResult current) /\
  Dashboard.onLoadResponse
    (Some (Dashboard.loadResponseOf (Dashboard.saveInput saved))) saved
  = (saved, Dashboard.DataLoaded).
Proof.
  split; [ reflexivity | ]. split.
  - eexists. split; [ reflexivity | ]. repeat split.
  - destruct saved as [ assets pensions events profile result ]. reflexivity.
Qed.

(** X18. A load changes nothing when the request fails or the body carries
    the status error.  Otherwise each of the four inputs is replaced by what
    the body carries for it, whatever that is (an empty list included), and
    keeps its current value when the body lacks it.  Loading the same body a
    second time changes nothing more, and no load ever changes the simulation
    result on screen. *)
Theorem load_failure_and_partial_load (st : State) :
  fst (Dashboard.onLoadResponse None st) = st /\
  (forall response,
     Dashboard.status response = Some "error"%string ->
     Dashboard.onLoadResponse (Some response) st
     = (st, Dashboard.FailedToLoad (Dashboard.message response))) /\
  (forall response,
     Dashboard.status response <> Some "error"%string ->
     snd (Dashboard.onLoadResponse (Some response) st) = Dashboard.DataLoaded /\
     (forall loaded, Dashboard.loaded_assets response = Some loaded ->
        Dashboard.assets (fst (Dashboard.onLoadResponse (Some response) st)) = loaded) /\
     (forall loaded, Dashboard.loaded_pensions response = Some loaded ->
        Dashboard.pensions (fst (Dashboard.onLoadResponse (Some response) st)) = loaded) /\
     (forall loaded, Dashboard.loaded_life_events response = Some loaded ->
        Dashboard.lifeEvents (fst (Dashboard.onLoadResponse (Some response) st))
        = loaded) /\
     (forall loaded, Dashboard.loaded_profile response = Some loaded ->
        Dashboard.profile (fst (Dashboard.onLoadResponse (Some response) st)) = loaded) /\
     (Dashboard.loaded_assets response = None ->
      Dashboard.assets (fst (Dashboard.onLoadResponse (Some response) st))
      = Dashboard.assets st) /\
     (Dashboard.loaded_pensions response = None ->
      Dashboard.pensions (fst (Dashboard.onLoadResponse (Some response) st))
      = Dashboard.pensions st) /\
     (Dashboard.loaded_life_events response = None ->
      Dashboard.lifeEvents (fst (Dashboard.onLoadResponse (Some response) st))
      = Dashboard.lifeEvents st) /\
     (Dashboard.loaded_profile response = None ->
      Dashboard.profile (fst (Dashboard.onLoadResponse (Some response) st))
      = Dashboard.profile st)) /\
  (forall response,
     Dashboard.onLoadResponse response (fst (Dashboard.onLoadResponse response st))
     = Dashboard.onLoadResponse response st) /\
  (forall response,
     Dashboard.simulationResult (fst (Dashboard.onLoadResponse response st))
     = Dashboard.simulationResult st).
Proof.
  split; [ reflexivity | ]. split; [ | split; [ | split ] ].
  - intros response Herr. unfold Dashboard.onLoadResponse.
    destruct (decide _) as [ _ | Hne ]; [ reflexivity | contradiction ].
  - intros response Hok. unfold Dashboard.onLoadResponse.
    destruct (decide _) as [ Herr | _ ]; [ contradiction | ]. simpl.
    split; [ reflexivity | ].
    split; [ intros loaded ->; reflexivity | ].
    split; [ intros loaded ->; reflexivity | ].
    split; [ intros loaded ->; reflexivity | ].
    split; [ intros loaded ->; reflexivity | ].
    split; [ intros ->; reflexivity | ].
    split; [ intros ->; reflexivity | ].
    split; intros ->; reflexivity.
  - intros [ response | ]; [ | reflexivity ].
    unfold Dashboard.onLoadResponse.
    destruct (decide _) as [ Herr | Hok ]; [ reflexivity | ]. simpl.
    f_equal. destruct st as [ assets pensions events profile result ]. simpl.
    destruct (Dashboard.loaded_assets response),
      (Dashboard.loaded_pensions response),
      (Dashboard.loaded_life_events response),
      (Dashboard.loaded_profile response); reflexivity.
  - intros [ response | ]; [ | reflexivity ].
    unfold Dashboard.onLoadResponse. destruct (decide _); reflexivity.
Qed.

(** X19. Among the edits, only a simulation request that succeeds changes
    the result on screen: additions, removals and profile edits leave the
    charts showing the result of the earlier inputs. *)
Theorem result_changes_only_on_simulation (st : State) (e : Edit) :
  (forall result, e <> Dashboard.RunSimulation asset pension lifeEvent (Some result)) ->
  Dashboard.simulationResult (Dashboard.apply st e) = Dashboard.simulationResult st.
Proof.
  intros Hnot.
  destruct e as [ a | p | ev | i | i | i | parsed | parsed | parsed | [ r | ] ];
    try reflexivity.
  exfalso. apply (Hnot r). reflexivity.
Qed.

End DashboardPersistence.

Lemma load_failure_and_partial_load_witness :
  Dashboard.pensions (fst (Dashboard.onLoadResponse (Some samplePartialLoad)
                             sampleDashboard))
  = ["Kosei Nenkin"%string] /\
  Dashboard.assets (fst (Dashboard.onLoadResponse (Some samplePartialLoad)
                           sampleDashboard))
  = Dashboard.assets sampleDashboard /\
  Dashboard.assets sampleDashboard = ["401k"%string].
Proof.
  destruct (load_failure_and_partial_load sampleDashboard) as (_ & _ & Hok & _).
  destruct (Hok samplePartialLoad) as (_ & _ & Hpensions & _ & _ & Hassets & _).
  - discriminate.
  - split; [ apply Hpensions; reflexivity | ].
    split; [ apply Hassets; reflexivity | reflexivity ].
Defined.

Lemma result_changes_only_on_simulation_witness :
  Dashboard.simulationResult
    (Dashboard.apply sampleDashboard (Dashboard.RemovePension string string string 0%nat))
  = Dashboard.simulationResult sampleDashboard.
Proof.
  apply (result_changes_only_on_simulation sampleDashboard
           (Dashboard.RemovePension string string string 0%nat)).
  intros result. discriminate.
Defined.

Section DashboardProvenance.

Context {asset pension lifeEvent : Type}.
Local Abbreviation State := (Dashboard.State asset pension lifeEvent).
Local Abbreviation Edit := (Dashboard.Edit asset pension lifeEvent).

Lemma provenance_from (edits : list Edit) (st : State) :
  (forall a, a ∈ Dashboard.assets (Dashboard.applyAll st edits) ->
     a ∈ Dashboard.assets st \/ Dashboard.AddAsset asset pension lifeEvent a ∈ edits) /\
  (forall p, p ∈ Dashboard.pensions (Dashboard.applyAll st edits) ->
     p ∈ Dashboard.pensions st \/ Dashboard.AddPension asset pension lifeEvent p ∈ edits) /\
  (forall e, e ∈ Dashboard.lifeEvents (Dashboard.applyAll st edits) ->
     e ∈ Dashboard.lifeEvents st
     \/ Dashboard.AddLifeEvent asset pension lifeEvent e ∈ edits).
Proof.
  unfold Dashboard.applyAll. revert st.
  induction edits as [ | ed edits IH ]; intros st; simpl.
  - repeat split; intros x Hx; left; exact Hx.
  - destruct (IH (Dashboard.apply st ed)) as (Ha & Hp & He).
    split; [ | split ]; intros x Hx.
    + destruct (Ha x Hx) as [ Hin | Hin ]; [ | right; right; exact Hin ].
      destruct ed; simpl in Hin; try (left; exact Hin).
      * apply elem_of_app in Hin. destruct Hin as [ Hin | Hin ]; [ left; exact Hin | ].
        apply list_elem_of_singleton in Hin. subst. right. left.
      * left. eapply list_elem_of_delete_inv. exact Hin.
      * destruct response; simpl in Hin; left; exact Hin.
    + destruct (Hp x Hx) as [ Hin | Hin ]; [ | right; right; exact Hin ].
      destruct ed; simpl in Hin; try (left; exact Hin).
      * apply elem_of_app in Hin. destruct Hin as [ Hin | Hin ]; [ left; exact Hin | ].
        apply list_elem_of_singleton in Hin. subst. right. left.
      * left. eapply list_elem_of_delete_inv. exact Hin.
      * destruct response; simpl in Hin; left; exact Hin.
    + destruct (He x Hx) as [ Hin | Hin ]; [ | right; right; exact Hin ].
      destruct ed; simpl in Hin; try (left; exact Hin).
      * apply elem_of_app in Hin. destruct Hin as [ Hin | Hin ]; [ left; exact Hin | ].
        apply list_elem_of_singleton in Hin. subst. right. left.
      * left. eapply list_elem_of_delete_inv. exact Hin.
      * destruct response; simpl in Hin; left; exact Hin.
Qed.

(** X20. Starting from the empty dashboard, every asset, pension and life
    event in the lists was handed over by an addition that is part of the
    edit history: removals, profile edits and simulation runs never create
    or alter an entry. *)
Theorem entries_come_from_additions (edits : list Edit) :
  (forall a,
     a ∈ Dashboard.assets
           (Dashboard.applyAll (Dashboard.initialState asset pension lifeEvent) edits) ->
     Dashboard.AddAsset asset pension lifeEvent a ∈ edits) /\
  (forall p,
     p ∈ Dashboard.pensions
           (Dashboard.applyAll (Dashboard.initialState asset pension lifeEvent) edits) ->
     Dashboard.AddPension asset pension lifeEvent p ∈ edits) /\
  (forall e,
     e ∈ Dashboard.lifeEvents
           (Dashboard.applyAll (Dashboard.initialState asset pension lifeEvent) edits) ->
     Dashboard.AddLifeEvent asset pension lifeEvent e ∈ edits).
Proof.
  destruct (provenance_from edits (Dashboard.initialState asset pension lifeEvent))
    as (Ha & Hp & He).
  split; [ | split ]; intros x Hx.
  - destruct (Ha x Hx) as [ Hin | Hin ]; [ | exact Hin ].
    simpl in Hin. apply elem_of_nil in Hin. contradiction.
  - destruct (Hp x Hx) as [ Hin | Hin ]; [ | exact Hin ].
    simpl in Hin. apply elem_of_nil in Hin. contradiction.
  - destruct (He x Hx) as [ Hin | Hin ]; [ | exact Hin ].
    simpl in Hin. apply elem_of_nil in Hin. contradiction.
Qed.

End DashboardProvenance.

(** * Properties of the entry forms *)

Lemma PensionForm_schema_sound (v : PensionForm.Values) :
  PensionForm.formSchema v = true ->
  (2 <= String.length (PensionForm.name v))%nat /\
  50 <= PensionForm.start_age v /\ PensionForm.start_age v <= 80 /\
  0 <= PensionForm.monthly_amount_estimated v.
Proof.
  unfold PensionForm.formSchema. intros H.
  apply andb_prop in H. destruct H as [H Hamount].
  apply andb_prop in H. destruct H as [H Hmax].
  apply andb_prop in H. destruct H as [Hname Hmin].
  apply Nat.leb_le in Hname.
  apply Qle_bool_iff in Hamount, Hmax, Hmin.
  repeat split; assumption.
Qed.

(** X21. A pension reaches the dashboard from the pension form only when
    its name has at least two characters, its start age lies between 50 and
    80 and its monthly amount is not negative; it then carries the typed
    values unchanged.  The untouched form (empty name) submits nothing.
    Hence, whatever is added, removed or edited afterwards, every pension in
    a dashboard list fed by the form keeps a start age within 50..80 and a
    non-negative amount. *)
Theorem form_pensions_stay_in_range {asset lifeEvent : Type}
    (edits : list (Dashboard.Edit asset PensionForm.Submitted lifeEvent)) :
  (forall p, Dashboard.AddPension asset PensionForm.Submitted lifeEvent p ∈ edits ->
             exists uuid v, PensionForm.submit uuid v = Some p) ->
  (forall uuid, PensionForm.submit uuid PensionForm.defaultValues = None) /\
  (forall uuid v p, PensionForm.submit uuid v = Some p ->
                    PensionForm.id p = uuid /\ PensionForm.values p = v) /\
  (forall p,
     p ∈ Dashboard.pensions
           (Dashboard.applyAll
              (Dashboard.initialState asset PensionForm.Submitted lifeEvent) edits) ->
     (2 <= String.length (PensionForm.name (PensionForm.values p)))%nat /\
     50 <= PensionForm.start_age (PensionForm.values p) /\
     PensionForm.start_age (PensionForm.values p) <= 80 /\
     0 <= PensionForm.monthly_amount_estimated (PensionForm.values p)).
Proof.
  intros Hform. split; [ reflexivity | ]. split.
  - intros uuid v p. unfold PensionForm.submit.
    destruct (PensionForm.formSchema v); [ | discriminate ].
    intros [= <-]. split; reflexivity.
  - intros p Hin.
    destruct (proj1 (proj2 (provenance_from edits
                (Dashboard.initialState asset PensionForm.Submitted lifeEvent))) p Hin)
      as [ Hinit | Hadd ].
    { simpl in Hinit. apply elem_of_nil in Hinit. contradiction. }
    destruct (Hform p Hadd) as (uuid & v & Hsubmit).
    unfold PensionForm.submit in Hsubmit.
    destruct (PensionForm.formSchema v) eqn:Hschema; [ | discriminate ].
    injection Hsubmit as <-. simpl.
    apply PensionForm_schema_sound. exact Hschema.
Qed.

Lemma form_pensions_stay_in_range_witness :
  50 <= PensionForm.start_age (PensionForm.values sampleSubmittedPension) /\
  PensionForm.start_age (PensionForm.values sampleSubmittedPension) <= 80.
Proof.
  assert (Hform : forall p,
            Dashboard.AddPension string PensionForm.Submitted string p
              ∈ samplePensionEdits ->
            exists uuid v, PensionForm.submit uuid v = Some p).
  { intros p Hin. unfold samplePensionEdits in Hin.
    apply elem_of_cons in Hin. destruct Hin as [ Heq | Hin ].
    - injection Heq as ->. exists "id-1"%string, samplePensionValues. reflexivity.
    - apply elem_of_cons in Hin. destruct Hin as [ Heq | Hin ]; [ discriminate Heq | ].
      apply elem_of_nil in Hin. contradiction. }
  destruct (form_pensions_stay_in_range samplePensionEdits Hform) as (_ & _ & Hrange).
  destruct (Hrange sampleSubmittedPension) as (_ & Hmin & Hmax & _).
  { vm_compute. constructor. }
  split; assumption.
Defined.

Lemma optionalRate_sound (x : option Q) :
  AssetForm.optionalRate x = true -> forall w, x = Some w -> 0 <= w /\ w <= 1.
Proof.
  intros H w ->. simpl in H. apply andb_prop in H. destruct H as [Hlo Hhi].
  apply Qle_bool_iff in Hlo, Hhi. split; assumption.
Qed.

(** X22. An asset reaches the dashboard from the asset form only when its
    name has at least two characters, its value and monthly contribution are
    not negative, its expected return rate lies between 0 and 1 and so does
    its withdrawal rate when one is given.  The entry built carries the
    typed values, takes its contribution currency from its currency, and is
    marked non-taxable exactly for the types 401k, IRA and RothIRA. *)
Theorem asset_form_submission (uuid : string) (v : AssetForm.Values)
    (a : AssetForm.Submitted) :
  AssetForm.submit uuid v = Some a ->
  AssetForm.id a = uuid /\
  AssetForm.values a = v /\
  AssetForm.contribution_currency a = AssetForm.currency v /\
  (AssetForm.is_taxable a = false <->
   AssetForm.type v = AssetForm.T401k \/ AssetForm.type v = AssetForm.IRA
   \/ AssetForm.type v = AssetForm.RothIRA) /\
  (2 <= String.length (AssetForm.name v))%nat /\
  0 <= AssetForm.current_value v /\
  0 <= AssetForm.contribution_monthly v /\
  0 <= AssetForm.expected_return_rate v /\
  AssetForm.expected_return_rate v <= 1 /\
  (forall w, AssetForm.withdrawal_rate v = Some w -> 0 <= w /\ w <= 1).
Proof.
  unfold AssetForm.submit.
  destruct (AssetForm.formSchema v) eqn:Hschema; [ | discriminate ].
  intros [= <-]. simpl.
  split; [ reflexivity | ]. split; [ reflexivity | ]. split; [ reflexivity | ].
  split.
  - destruct (AssetForm.type v); simpl; split;
      try discriminate; try (intros _; auto; fail);
      intros [ H | [ H | H ] ]; discriminate H.
  - unfold AssetForm.formSchema in Hschema.
    apply andb_prop in Hschema. destruct Hschema as [H Hw].
    apply andb_prop in H. destruct H as [H Hmax].
    apply andb_prop in H. destruct H as [H Hmin].
    apply andb_prop in H. destruct H as [H Hcontrib].
    apply andb_prop in H. destruct H as [Hname Hvalue].
    apply Nat.leb_le in Hname.
    apply Qle_bool_iff in Hmax, Hmin, Hcontrib, Hvalue.
    split; [ exact Hname | ]. split; [ exact Hvalue | ].
    split; [ exact Hcontrib | ]. split; [ exact Hmin | ].
    split; [ exact Hmax | ]. apply optionalRate_sound. exact Hw.
Qed.

Lemma asset_form_submission_witness :
  AssetForm.is_taxable (AssetForm.handleSubmit "id-2" sampleAssetValues) = false <->
  AssetForm.type sampleAssetValues = AssetForm.T401k
  \/ AssetForm.type sampleAssetValues = AssetForm.IRA
  \/ AssetForm.type sampleAssetValues = AssetForm.RothIRA.
Proof.
  apply (asset_form_submission "id-2" sampleAssetValues
           (AssetForm.handleSubmit "id-2" sampleAssetValues)).
  reflexivity.
Defined.

Lemma entries_come_from_additions_witness :
  Dashboard.AddPension string PensionForm.Submitted string sampleSubmittedPension
    ∈ samplePensionEdits.
Proof.
  apply (proj1 (proj2 (entries_come_from_additions samplePensionEdits))).
  vm_compute. constructor.
Defined.
